(** * Verification of [tools/visual.py]

    The module holds two plotting helpers, [plot] and [plot_homotopy], written
    against numpy and matplotlib.  Both are embedded below as computations in
    a state-and-exception monad over a [World] that holds what the two
    libraries keep behind the scenes: the figures and axes created so far and
    what has been drawn on each of them.

    Numbers are binary64 floats, Rocq's primitive [float]: the sample grid
    is computed with the rounding, the infinities and the NaN of the
    program's own arithmetic. *)

From Stdlib Require Import String ZArith Uint63 Floats Bool List Lia.
Import ListNotations.
Local Open Scope string_scope.
Local Open Scope float_scope.
Local Open Scope list_scope.

(** Decimal literals stand for the nearest binary64 value, as in Python. *)
#[local] Set Warnings "-inexact-float".

(** ** Python values *)

(** A Python number: a float (or int), or a complex. *)
Inductive num : Type :=
| Real (x : float)
| Complex (re im : float).

(** [z.real] and [z.imag] of a number. *)
Definition real (n : num) : float :=
  match n with
  | Real x => x
  | Complex re _ => re
  end.

Definition imag (n : num) : float :=
  match n with
  | Real _ => 0
  | Complex _ im => im
  end.

(** The values the two functions are handed as data: a bare number, a plain
    Python list of numbers, or a one-dimensional numpy array. *)
Inductive pyobj : Type :=
| PyNum (n : num)
| PyList (l : list num)
| NdArray (l : list num).

(** The exceptions that can travel through the two functions.  [Raised] is
    any other exception, by its name, such as one thrown by the caller's own
    function [f]. *)
Inductive exn : Type :=
| AttributeError
| ValueError
| Raised (name : string).

Inductive result (A : Type) : Type :=
| Ok (a : A)
| Err (e : exn).

Arguments Ok {A} a.
Arguments Err {A} e.

(** Attribute access [o.real] / [o.imag]: numbers and numpy arrays have both
    attributes, a plain list has neither. *)
Definition getattr_real (o : pyobj) : result pyobj :=
  match o with
  | PyNum n => Ok (PyNum (Real (real n)))
  | NdArray l => Ok (NdArray (map (fun n => Real (real n)) l))
  | PyList _ => Err AttributeError
  end.

Definition getattr_imag (o : pyobj) : result pyobj :=
  match o with
  | PyNum n => Ok (PyNum (Real (imag n)))
  | NdArray l => Ok (NdArray (map (fun n => Real (imag n)) l))
  | PyList _ => Err AttributeError
  end.

(** Length of the first dimension once matplotlib has passed the value through
    [np.atleast_1d]. *)
Definition len1d (o : pyobj) : nat :=
  match o with
  | PyNum _ => 1
  | PyList l => length l
  | NdArray l => length l
  end.

(** The numbers of a value, in order. *)
Definition items (o : pyobj) : list num :=
  match o with
  | PyNum n => [n]
  | PyList l => l
  | NdArray l => l
  end.

(** ** numpy: [np.linspace] *)

(** [float(z)] for a Python int [z >= 0] (below 2^63, as every array length
    is). *)
Definition float_of_int (z : Z) : float := of_uint63 (Uint63.of_Z z).

(** [np.arange(0, num)] with dtype float. *)
Definition arange (n : Z) : list float :=
  map (fun i => float_of_int (Z.of_nat i)) (seq 0 (Z.to_nat n)).

(** [y[-1] = v] on a non-empty array: all but the last sample stay. *)
Definition set_last (l : list float) (v : float) : list float :=
  firstn (length l - 1) l ++ [v].

(** [np.linspace(start, stop, num)] with [endpoint=True], following numpy's
    [function_base.linspace] operation by operation, each one rounded as
    binary64 rounds it: a negative [num] is a [ValueError]; with
    [step = (stop - start) / (num - 1)] the samples are
    [arange(num) * step + start], or [arange(num) / (num - 1) * (stop - start)
    + start] when [step] compares equal to zero; when [num > 1] the last
    sample is overwritten with [stop]. *)
Definition linspace (start stop : float) (num : Z) : result (list float) :=
  if (num <? 0)%Z then Err ValueError
  else
    let div := (num - 1)%Z in
    let delta := stop - start in
    let y := arange num in
    let y :=
      if (0 <? div)%Z then
        let step := delta / float_of_int div in
        if step =? 0
        then map (fun i => i / float_of_int div * delta) y
        else map (fun i => i * step) y
      else map (fun i => i * delta) y in
    let y := map (fun v => v + start) y in
    Ok (if (1 <? num)%Z then set_last y stop else y).

(** ** matplotlib: figures, axes and what is drawn on them *)

Inductive kwval : Type :=
| KStr (s : string)
| KNum (q : float).

(** Keyword arguments, in the order written. *)
Definition kwargs : Type := list (string * kwval).

(** What an axes accumulates: a curve from [Axes.plot] with its data and
    properties, or a horizontal segment from [Axes.hlines]. *)
Inductive artist : Type :=
| Line2D (xdata ydata : pyobj) (props : kwargs)
| HLines (y xmin xmax : float) (props : kwargs).

Inductive aspect : Type :=
| AspectAuto
| AspectEqual.

Record Axes : Type := mkAxes {
  artists : list artist;
  aspect_of : aspect;
  xlabel : string;
  ylabel : string
}.

(** A freshly created axes: nothing drawn, aspect ['auto'], no labels. *)
Definition blank_axes : Axes := mkAxes [] AspectAuto "" "".

(** An axes is referred to through a handle; two handles that are equal are
    the same axes. *)
Definition handle : Type := nat.

Record Figure : Type := mkFigure {
  figsize : option (float * float);
  panels : list handle
}.

(** The parts of matplotlib the module relies on without fixing them: which
    line properties [Axes.plot] accepts, the exception it raises for options
    it refuses ([AttributeError] for a property it does not know,
    [ValueError] for a value it cannot use), and the view limits [get_xlim]
    reports for an axes in a given state (autoscaling). *)
Record Backend : Type := mkBackend {
  accepts : string * kwval -> bool;
  refusal : kwargs -> exn;
  xlim_of : Axes -> float * float
}.

(** Everything a call can read or change. [colors] is the module-level
    palette; [calls] logs the arguments the caller's function [f] has been
    applied to, oldest first. *)
Record World : Type := mkWorld {
  mpl : Backend;
  colors : list string;
  figures : list Figure;
  axes : handle -> Axes;
  fresh : handle;
  calls : list pyobj
}.

Definition set_colors (c : list string) (w : World) : World :=
  mkWorld (mpl w) c (figures w) (axes w) (fresh w) (calls w).

Definition upd (a : handle) (g : Axes -> Axes) (s : handle -> Axes) : handle -> Axes :=
  fun b => if Nat.eqb b a then g (s a) else s b.

Definition update_axes (a : handle) (g : Axes -> Axes) (w : World) : World :=
  mkWorld (mpl w) (colors w) (figures w) (upd a g (axes w)) (fresh w) (calls w).

Definition log_call (x : pyobj) (w : World) : World :=
  mkWorld (mpl w) (colors w) (figures w) (axes w) (fresh w) (calls w ++ [x]).

(** ** The monad: state that survives an exception *)

Definition M (A : Type) : Type := World -> result A * World.

Definition ret {A} (a : A) : M A := fun w => (Ok a, w).

Definition raise {A} (e : exn) : M A := fun w => (Err e, w).

Definition bind {A B} (m : M A) (k : A -> M B) : M B :=
  fun w =>
    match m w with
    | (Ok a, w') => k a w'
    | (Err e, w') => (Err e, w')
    end.

Definition lift {A} (r : result A) : M A := fun w => (r, w).

Declare Scope py_scope.
Delimit Scope py_scope with py.
Notation "x <- m ;; k" := (bind m (fun x => k))
  (at level 100, m at next level, right associativity) : py_scope.
Notation "m ;; k" := (bind m (fun _ => k))
  (at level 100, right associativity) : py_scope.
Open Scope py_scope.

(** [for x in l: body(x)] *)
Fixpoint for_each {A} (l : list A) (body : A -> M unit) : M unit :=
  match l with
  | [] => ret tt
  | x :: rest => body x ;; for_each rest body
  end.

(** ** matplotlib primitives *)

Definition add_artist (x : artist) (ax : Axes) : Axes :=
  mkAxes (artists ax ++ [x]) (aspect_of ax) (xlabel ax) (ylabel ax).

Definition with_aspect (v : aspect) (ax : Axes) : Axes :=
  mkAxes (artists ax) v (xlabel ax) (ylabel ax).

Definition with_xlabel (s : string) (ax : Axes) : Axes :=
  mkAxes (artists ax) (aspect_of ax) s (ylabel ax).

Definition with_ylabel (s : string) (ax : Axes) : Axes :=
  mkAxes (artists ax) (aspect_of ax) (xlabel ax) s.

(** [fig, ax = plt.subplots()]: one new figure holding one new axes. *)
Definition subplots : M handle :=
  fun w =>
    let a := fresh w in
    (Ok a,
     mkWorld (mpl w) (colors w)
       (figures w ++ [mkFigure None [a]])
       (upd a (fun _ => blank_axes) (axes w))
       (S a) (calls w)).

(** [_, axs = plt.subplots(ncols=2, figsize=(10, 4))]: one new figure holding
    two new axes side by side. *)
Definition subplots2 : M (handle * handle) :=
  fun w =>
    let a := fresh w in
    (Ok (a, S a),
     mkWorld (mpl w) (colors w)
       (figures w ++ [mkFigure (Some (10, 4)) [a; S a]])
       (upd (S a) (fun _ => blank_axes) (upd a (fun _ => blank_axes) (axes w)))
       (S (S a)) (calls w)).

(** [ax.plot(x, y, **kw)].  matplotlib refuses data whose first dimensions
    differ ([ValueError]) and options it does not accept (with the exception
    the backend has for them); in both cases nothing is added to the axes. *)
Definition ax_plot (a : handle) (x y : pyobj) (kw : kwargs) : M unit :=
  fun w =>
    if negb (Nat.eqb (len1d x) (len1d y)) then (Err ValueError, w)
    else if negb (forallb (accepts (mpl w)) kw) then (Err (refusal (mpl w) kw), w)
    else (Ok tt, update_axes a (add_artist (Line2D x y kw)) w).

(** [ax.get_xlim()] *)
Definition get_xlim (a : handle) : M (float * float) :=
  fun w => (Ok (xlim_of (mpl w) (axes w a)), w).

(** [ax.hlines(y, xmin, xmax, **kw)] *)
Definition hlines (a : handle) (y xmin xmax : float) (kw : kwargs) : M unit :=
  fun w => (Ok tt, update_axes a (add_artist (HLines y xmin xmax kw)) w).

Definition set_aspect (a : handle) (v : aspect) : M unit :=
  fun w => (Ok tt, update_axes a (with_aspect v) w).

Definition set_xlabel (a : handle) (s : string) : M unit :=
  fun w => (Ok tt, update_axes a (with_xlabel s) w).

Definition set_ylabel (a : handle) (s : string) : M unit :=
  fun w => (Ok tt, update_axes a (with_ylabel s) w).

(** ** The module *)

(** A caller's function: applied to the grid, it returns a value or raises. *)
Definition callable : Type := pyobj -> result pyobj.

(** [f(x)]: one application, logged. *)
Definition call (f : callable) (x : pyobj) : M pyobj :=
  fun w => (f x, log_call x w).

(** [np.linspace(x0, x1, N)] as an array value. *)
Definition np_linspace (x0 x1 : float) (N : Z) : M pyobj :=
  match linspace x0 x1 N with
  | Ok g => ret (NdArray (map Real g))
  | Err e => raise e
  end.

(** [color='k', linestyle='--', linewidth=1, zorder=-1] *)
Definition zero_style : kwargs :=
  [("color", KStr "k"); ("linestyle", KStr "--"); ("linewidth", KNum 1);
   ("zorder", KNum (-1))].

(** [linewidth=1, color='k', linestyle='--'] *)
Definition dashed_style : kwargs :=
  [("linewidth", KNum 1); ("color", KStr "k"); ("linestyle", KStr "--")].

(** The default of [N]. *)
Definition default_N : Z := 100%Z.

(** [def plot(f, x0, x1, N=100, ax=None, zero=None, **kwargs)] *)
Definition plot (f : callable) (x0 x1 : float) (N : Z) (ax : option handle)
    (zero : option float) (kw : kwargs) : M unit :=
  ax <- match ax with
        | None => subplots
        | Some a => ret a
        end ;;
  x <- np_linspace x0 x1 N ;;
  y <- call f x ;;
  ax_plot ax x y kw ;;
  match zero with
  | Some z =>
      lim <- get_xlim ax ;;
      hlines ax z (fst lim) (snd lim) zero_style
  | None => ret tt
  end.

(** The body of [for xp in xpaths]. *)
Definition draw_path (ppath : pyobj) (axs : handle * handle) (xp : pyobj) : M unit :=
  xr <- lift (getattr_real xp) ;;
  pr <- lift (getattr_real ppath) ;;
  ax_plot (fst axs) xr pr [] ;;
  xi <- lift (getattr_imag xp) ;;
  pr <- lift (getattr_real ppath) ;;
  ax_plot (snd axs) xi pr [].

(** [def plot_homotopy(ppath, xpaths, rzero=None, czero=None, equal=True, axs=None)] *)
Definition plot_homotopy (ppath : pyobj) (xpaths : list pyobj)
    (rzero czero : option pyobj) (equal : bool)
    (axs : option (handle * handle)) : M unit :=
  axs <- match axs with
         | None => subplots2
         | Some p => ret p
         end ;;
  match rzero with
  | Some r => ax_plot (fst axs) r ppath dashed_style
  | None => ret tt
  end ;;
  match czero with
  | Some c => ax_plot (snd axs) c ppath dashed_style
  | None => ret tt
  end ;;
  for_each xpaths (draw_path ppath axs) ;;
  (if equal
   then set_aspect (fst axs) AspectEqual ;; set_aspect (snd axs) AspectEqual
   else ret tt) ;;
  set_xlabel (fst axs) "Solution (Real)" ;;
  set_xlabel (snd axs) "Solution (Imaginary)" ;;
  set_ylabel (fst axs) "Parameter".

(** ** A concrete world to run the functions in *)

(** The x-coordinates an artist occupies. *)
Definition xs_of (x : artist) : list float :=
  match x with
  | Line2D xd _ _ => map real (items xd)
  | HLines _ xmin xmax _ => [xmin; xmax]
  end.

Definition min_list (d : float) (l : list float) : float :=
  fold_left (fun m v => if v <=? m then v else m) l d.

Definition max_list (d : float) (l : list float) : float :=
  fold_left (fun m v => if m <=? v then v else m) l d.

(** The extent of the data on an axes: (0, 0) when the artists hold no
    point. *)
Definition data_xlim (ax : Axes) : float * float :=
  match flat_map xs_of (artists ax) with
  | [] => (0, 0)
  | v :: rest => (min_list v rest, max_list v rest)
  end.

(** An extent without width is widened first, as matplotlib's [nonsingular]
    does: by 0.05 around zero, by 5% of its size around another value. *)
Definition nonsingular (lim : float * float) : float * float :=
  let (lo, hi) := lim in
  if lo =? hi then
    if lo =? 0 then (-0.05, 0.05)
    else (lo - 0.05 * abs lo, hi + 0.05 * abs hi)
  else (lo, hi).

(** Autoscaled limits in matplotlib's default style: (0, 1) on an axes
    without artists, otherwise the extent of the data widened by 5% on each
    side. *)
Definition margins_xlim (ax : Axes) : float * float :=
  match artists ax with
  | [] => (0, 1)
  | _ :: _ =>
      let (lo, hi) := nonsingular (data_xlim ax) in
      let pad := 0.05 * (hi - lo) in
      (lo - pad, hi + pad)
  end.

(** A backend that knows every property it is given. *)
Definition demo_backend : Backend :=
  mkBackend (fun _ => true) (fun _ => AttributeError) margins_xlim.

(** The state right after import, before anything is plotted; the palette is
    matplotlib's default colour cycle. *)
Definition world0 : World :=
  mkWorld demo_backend
    ["#1f77b4"; "#ff7f0e"; "#2ca02c"; "#d62728"; "#9467bd";
     "#8c564b"; "#e377c2"; "#7f7f7f"; "#bcbd22"; "#17becf"]
    [] (fun _ => blank_axes) 0%nat [].

(** * Vocabulary for the statements *)

(** [preserves R m]: whatever [m] does, and whether or not it raises, the
    world it leaves is related by [R] to the world it started in. *)
Definition preserves (R : World -> World -> Prop) {A} (m : M A) : Prop :=
  forall w, R w (snd (m w)).

(** [kept proj]: a feature [proj] of every axes is the same before and after. *)
Definition kept {T} (proj : Axes -> T) (w w' : World) : Prop :=
  forall b, proj (axes w' b) = proj (axes w b).

(** [framed a]: nothing outside the axes [a] changes, and no figure or axes
    is created. *)
Definition framed (a : handle) (w w' : World) : Prop :=
  figures w' = figures w /\ fresh w' = fresh w /\
  forall b, b <> a -> axes w' b = axes w b.

(** The statements of [plot] that follow the choice of the surface. *)
Definition plot_on (f : callable) (x0 x1 : float) (N : Z) (zero : option float)
    (kw : kwargs) (ax : handle) : M unit :=
  x <- np_linspace x0 x1 N ;;
  y <- call f x ;;
  ax_plot ax x y kw ;;
  match zero with
  | Some z =>
      lim <- get_xlim ax ;;
      hlines ax z (fst lim) (snd lim) zero_style
  | None => ret tt
  end.

(** The statements of [plot_homotopy] that draw: the two reference curves and
    the loop over [xpaths]. *)
Definition draw_all (ppath : pyobj) (xpaths : list pyobj)
    (rzero czero : option pyobj) (axs : handle * handle) : M unit :=
  match rzero with
  | Some r => ax_plot (fst axs) r ppath dashed_style
  | None => ret tt
  end ;;
  match czero with
  | Some c => ax_plot (snd axs) c ppath dashed_style
  | None => ret tt
  end ;;
  for_each xpaths (draw_path ppath axs).

(** What the closing statements of [plot_homotopy] (aspect and labels) make
    of a world; none of them can raise. *)
Definition decorated (equal : bool) (axs : handle * handle) (w : World) : World :=
  let w1 :=
    if equal
    then update_axes (snd axs) (with_aspect AspectEqual)
           (update_axes (fst axs) (with_aspect AspectEqual) w)
    else w in
  update_axes (fst axs) (with_ylabel "Parameter")
    (update_axes (snd axs) (with_xlabel "Solution (Imaginary)")
       (update_axes (fst axs) (with_xlabel "Solution (Real)") w1)).

(** The two panels a call of [plot_homotopy] draws on: the caller's, or the
    pair it creates. *)
Definition panels_for (axs : option (handle * handle)) (w : World) : handle * handle :=
  match axs with
  | Some p => p
  | None => (fresh w, S (fresh w))
  end.

(** The world once the panels are there. *)
Definition opened (axs : option (handle * handle)) (w : World) : World :=
  match axs with
  | Some _ => w
  | None => snd (subplots2 w)
  end.

(** The surface a call of [plot] draws on, and the world once it is there. *)
Definition surface_for (ax : option handle) (w : World) : handle :=
  match ax with
  | Some a => a
  | None => fresh w
  end.

Definition readied (ax : option handle) (w : World) : World :=
  match ax with
  | Some _ => w
  | None => snd (subplots w)
  end.

(** [colors_blind m]: running [m] with another palette gives the same outcome
    and the same world, palette apart. *)
Definition colors_blind {A} (m : M A) : Prop :=
  forall c w, m (set_colors c w) = (fst (m w), set_colors c (snd (m w))).

(** A value that has [.real] and [.imag]. *)
Definition has_parts (o : pyobj) : bool :=
  match getattr_real o with
  | Ok _ => true
  | Err _ => false
  end.

(** [o.real] and [o.imag] where they exist. *)
Definition re_data (o : pyobj) : pyobj :=
  match getattr_real o with
  | Ok v => v
  | Err _ => o
  end.

Definition im_data (o : pyobj) : pyobj :=
  match getattr_imag o with
  | Ok v => v
  | Err _ => o
  end.

(** One drawing step: an artist added to an axes. *)
Definition stroke : Type := (handle * artist)%type.

(** The artists a sequence of strokes puts on the axes [b], in order. *)
Definition on (b : handle) (l : list stroke) : list artist :=
  map snd (filter (fun s => Nat.eqb (fst s) b) l).

Definition apply_strokes (l : list stroke) (w : World) : World :=
  fold_left (fun w0 s => update_axes (fst s) (add_artist (snd s)) w0) l w.

(** The dashed reference curve of a panel, when its data is supplied. *)
Definition ref_strokes (a : handle) (zero : option pyobj) (ppath : pyobj) : list stroke :=
  match zero with
  | Some r => [(a, Line2D r ppath dashed_style)]
  | None => []
  end.

(** The two solution curves of one path. *)
Definition real_curve (ppath xp : pyobj) : artist := Line2D (re_data xp) (re_data ppath) [].
Definition imag_curve (ppath xp : pyobj) : artist := Line2D (im_data xp) (re_data ppath) [].

Definition path_strokes (ppath : pyobj) (axs : handle * handle) (xp : pyobj) : list stroke :=
  [(fst axs, real_curve ppath xp); (snd axs, imag_curve ppath xp)].

(** Everything [plot_homotopy] draws when nothing raises, in drawing order. *)
Definition homotopy_strokes (ppath : pyobj) (xpaths : list pyobj)
    (rzero czero : option pyobj) (axs : handle * handle) : list stroke :=
  ref_strokes (fst axs) rzero ppath ++ ref_strokes (snd axs) czero ppath
  ++ flat_map (path_strokes ppath axs) xpaths.

(** The reference data fits: same length as [ppath], and the backend knows
    the dashed style. *)
Definition ref_fits (w : World) (zero : option pyobj) (ppath : pyobj) : Prop :=
  match zero with
  | Some r => len1d r = len1d ppath /\ forallb (accepts (mpl w)) dashed_style = true
  | None => True
  end.

(** A solution path fits: it has real and imaginary parts and is as long as
    [ppath]. *)
Definition path_fits (ppath xp : pyobj) : Prop :=
  has_parts xp = true /\ len1d xp = len1d ppath.

(** The points a curve passes through, as (x, y) pairs. *)
Definition curve_points (x : artist) : list (float * float) :=
  match x with
  | Line2D xd yd _ => combine (map real (items xd)) (map real (items yd))
  | HLines y lo hi _ => [(lo, y); (hi, y)]
  end.

Definition is_hline (x : artist) : bool :=
  match x with
  | HLines _ _ _ _ => true
  | Line2D _ _ _ => false
  end.

(** The horizontal lines on an axes. *)
Definition hlines_of (ax : Axes) : list artist := filter is_hline (artists ax).

(** A value all of whose numbers are real. *)
Definition real_valued (o : pyobj) : Prop :=
  Forall (fun n => n = Real (real n)) (items o).

(** ** Inputs of the scenarios *)

(** [[0, 1, 2]] and [[1+1j, 2+2j, 3+3j]], as plain lists and as numpy arrays. *)
Definition ppath_nums : list num := [Real 0; Real 1; Real 2].
Definition xpath_nums : list num := [Complex 1 1; Complex 2 2; Complex 3 3].

(** [plot_homotopy([0,1,2], [[1+1j, 2+2j, 3+3j]])] right after import. *)
Definition scenario_lists : result unit * World :=
  plot_homotopy (PyList ppath_nums) [PyList xpath_nums] None None true None world0.

(** The step of a grid of [N >= 2] points from [x0] to [x1], as binary64
    computes it. *)
Definition grid_step (x0 x1 : float) (N : Z) : float :=
  (x1 - x0) / float_of_int (N - 1).

(** The [i]-th point of that grid before the last: [i * step + x0], each
    operation rounded; when the step compares equal to zero the index is
    divided first, [i / (N - 1) * (x1 - x0) + x0]. *)
Definition grid_point (x0 x1 : float) (N : Z) (i : nat) : float :=
  if grid_step x0 x1 N =? 0
  then float_of_int (Z.of_nat i) / float_of_int (N - 1) * (x1 - x0) + x0
  else float_of_int (Z.of_nat i) * grid_step x0 x1 N + x0.

(** The world [plot] leaves on the surface [a] when nothing raises: the call
    of [f] logged, the curve added, then the reference line at [zero], if
    any, between the limits the axes reports once the curve is on it. *)
Definition plotted (a : handle) (x y : pyobj) (kw : kwargs) (zero : option float)
    (w : World) : World :=
  let w2 := update_axes a (add_artist (Line2D x y kw)) (log_call x w) in
  match zero with
  | Some z =>
      update_axes a
        (add_artist (HLines z (fst (xlim_of (mpl w2) (axes w2 a)))
                       (snd (xlim_of (mpl w2) (axes w2 a))) zero_style)) w2
  | None => w2
  end.

(** [lambda x: 1.0]: a function that is not vectorized. *)
Definition constant_one : callable := fun _ => Ok (PyNum (Real 1)).

(** [lambda x: x**2] on arrays. *)
Definition square : callable :=
  fun o =>
    match o with
    | NdArray l => Ok (NdArray (map (fun n => Real (real n * real n)) l))
    | PyNum n => Ok (PyNum (Real (real n * real n)))
    | PyList _ => Err (Raised "TypeError")
    end.

(** [plot_homotopy(np.array([0,1,2]), [np.array([1+1j, 2+2j, 3+3j])])] right
    after import. *)
Definition scenario_arrays : result unit * World :=
  plot_homotopy (NdArray ppath_nums) [NdArray xpath_nums] None None true None world0.

(** The same with two paths, both plain lists. *)
Definition scenario_two_lists : result unit * World :=
  plot_homotopy (NdArray ppath_nums) [PyList xpath_nums; PyList xpath_nums]
    None None true None world0.

(** [plot_homotopy([0,1,2], [])] right after import. *)
Definition scenario_no_paths : result unit * World :=
  plot_homotopy (PyList ppath_nums) [] None None true None world0.

(** [plot(lambda x: 1.0, 0, 1, N=3, zero=0)] right after import. *)
Definition scenario_constant : result unit * World :=
  plot constant_one 0 1 3 None (Some 0) [] world0.

(** ** Vocabulary for the further properties *)

(** [grows]: every axes holds what it held, possibly followed by more. *)
Definition grows (w w' : World) : Prop :=
  forall b, exists l, artists (axes w' b) = artists (axes w b) ++ l.

(** [framed2 p]: nothing outside the two axes of [p] changes, no figure or
    axes is created, and no function of the caller is applied. *)
Definition framed2 (p : handle * handle) (w w' : World) : Prop :=
  figures w' = figures w /\ fresh w' = fresh w /\ calls w' = calls w /\
  forall b, b <> fst p -> b <> snd p -> axes w' b = axes w b.



(** The world after [fig, ax = plt.subplots()]: one figure whose axes has
    the handle 0. *)
Definition world1 : World := snd (subplots world0).

(** [plot_homotopy(np.array([0,1,2]), [np.array([1+1j, 2+2j, 3+3j])],
    axs=(ax, ax))] with [ax] the axes of [world1]: one axes for both
    panels. *)
Definition scenario_shared_axes : result unit * World :=
  plot_homotopy (NdArray ppath_nums) [NdArray xpath_nums] None None true
    (Some (0%nat, 0%nat)) world1.



(** * Reasoning about runs *)

(** ** The store of axes *)

Lemma upd_same (a : handle) (g : Axes -> Axes) (s : handle -> Axes) :
  upd a g s a = g (s a).
Proof. unfold upd. now rewrite Nat.eqb_refl. Qed.

Lemma upd_other (a b : handle) (g : Axes -> Axes) (s : handle -> Axes) :
  b <> a -> upd a g s b = s b.
Proof. intros Hne. unfold upd. now apply Nat.eqb_neq in Hne as ->. Qed.

(** ** Sequencing *)

Lemma bind_ok {A B} (m : M A) (k : A -> M B) (w : World) (a : A) (w1 : World) :
  m w = (Ok a, w1) -> bind m k w = k a w1.
Proof. intros H. unfold bind. now rewrite H. Qed.

Lemma bind_err {A B} (m : M A) (k : A -> M B) (w : World) (e : exn) (w1 : World) :
  m w = (Err e, w1) -> bind m k w = (Err e, w1).
Proof. intros H. unfold bind. now rewrite H. Qed.

Lemma bind3_cut {A} (m1 m2 m3 : M unit) (k : M A) (w : World) :
  (m1 ;; m2 ;; m3 ;; k) w = ((m1 ;; m2 ;; m3) ;; k) w.
Proof.
  unfold bind.
  destruct (m1 w) as [[[] | e] wa]; [| reflexivity].
  destruct (m2 wa) as [[[] | e] wb]; [| reflexivity].
  destruct (m3 wb) as [[[] | e] wc]; reflexivity.
Qed.

(** ** Relations every step of a run maintains *)

Section Preserves.
Variable R : World -> World -> Prop.
Hypothesis R_refl : forall w, R w w.
Hypothesis R_trans : forall w1 w2 w3, R w1 w2 -> R w2 w3 -> R w1 w3.

Lemma preserves_ret {A} (a : A) : preserves R (ret a).
Proof. intros w. apply R_refl. Qed.

Lemma preserves_raise {A} (e : exn) : preserves R (@raise A e).
Proof. intros w. apply R_refl. Qed.

Lemma preserves_lift {A} (r : result A) : preserves R (lift r).
Proof. intros w. apply R_refl. Qed.

Lemma preserves_bind {A B} (m : M A) (k : A -> M B) :
  preserves R m -> (forall a, preserves R (k a)) -> preserves R (bind m k).
Proof.
  intros Hm Hk w. unfold bind. specialize (Hm w).
  destruct (m w) as [[a | e] w1]; simpl in Hm.
  - eapply R_trans; [exact Hm | apply Hk].
  - exact Hm.
Qed.

Lemma preserves_for_each {A} (body : A -> M unit) (l : list A) :
  (forall x, preserves R (body x)) -> preserves R (for_each l body).
Proof.
  intros Hb. induction l as [| x rest IH]; simpl.
  - apply preserves_ret.
  - apply preserves_bind; [apply Hb | intros _; exact IH].
Qed.

Lemma preserves_np_linspace (x0 x1 : float) (N : Z) : preserves R (np_linspace x0 x1 N).
Proof.
  unfold np_linspace.
  destruct (linspace x0 x1 N); [apply preserves_ret | apply preserves_raise].
Qed.

Lemma preserves_call (f : callable) (x : pyobj) :
  (forall w, R w (log_call x w)) -> preserves R (call f x).
Proof. intros H w. apply H. Qed.

Lemma preserves_ax_plot (a : handle) (x y : pyobj) (kw : kwargs) :
  (forall w, R w (update_axes a (add_artist (Line2D x y kw)) w)) ->
  preserves R (ax_plot a x y kw).
Proof.
  intros H w. unfold ax_plot.
  destruct (negb _); [apply R_refl |].
  destruct (negb _); [apply R_refl | apply H].
Qed.

Lemma preserves_get_xlim (a : handle) : preserves R (get_xlim a).
Proof. intros w. apply R_refl. Qed.
End Preserves.

Lemma kept_refl {T} (proj : Axes -> T) (w : World) : kept proj w w.
Proof. intros b. reflexivity. Qed.

Lemma kept_trans {T} (proj : Axes -> T) (w1 w2 w3 : World) :
  kept proj w1 w2 -> kept proj w2 w3 -> kept proj w1 w3.
Proof. intros H12 H23 b. now rewrite H23, H12. Qed.

Lemma kept_update {T} (proj : Axes -> T) (a : handle) (g : Axes -> Axes) (w : World) :
  (forall ax, proj (g ax) = proj ax) -> kept proj w (update_axes a g w).
Proof.
  intros Hg b. simpl. unfold upd.
  destruct (Nat.eqb_spec b a) as [-> | _]; [apply Hg | reflexivity].
Qed.

Lemma framed_refl (a : handle) (w : World) : framed a w w.
Proof. repeat split. Qed.

Lemma framed_trans (a : handle) (w1 w2 w3 : World) :
  framed a w1 w2 -> framed a w2 w3 -> framed a w1 w3.
Proof.
  intros (F12 & N12 & A12) (F23 & N23 & A23). repeat split; try congruence.
  intros b Hb. now rewrite A23, A12.
Qed.

Lemma framed_update (a : handle) (g : Axes -> Axes) (w : World) :
  framed a w (update_axes a g w).
Proof. repeat split. intros b Hb. simpl. now apply upd_other. Qed.

Lemma framed_log_call (a : handle) (x : pyobj) (w : World) : framed a w (log_call x w).
Proof. repeat split. Qed.

(** ** The two functions, cut at the choice of surface *)

Lemma plot_unfold (f : callable) (x0 x1 : float) (N : Z) (ax : option handle)
    (zero : option float) (kw : kwargs) (w : World) :
  plot f x0 x1 N ax zero kw w
  = plot_on f x0 x1 N zero kw (surface_for ax w) (readied ax w).
Proof. destruct ax; reflexivity. Qed.

Lemma decorate_runs (equal : bool) (axs : handle * handle) (w : World) :
  ((if equal
    then set_aspect (fst axs) AspectEqual ;; set_aspect (snd axs) AspectEqual
    else ret tt) ;;
   set_xlabel (fst axs) "Solution (Real)" ;;
   set_xlabel (snd axs) "Solution (Imaginary)" ;;
   set_ylabel (fst axs) "Parameter") w
  = (Ok tt, decorated equal axs w).
Proof. destruct equal; reflexivity. Qed.

Lemma plot_homotopy_unfold (ppath : pyobj) (xpaths : list pyobj)
    (rzero czero : option pyobj) (equal : bool)
    (axs : option (handle * handle)) (w : World) :
  plot_homotopy ppath xpaths rzero czero equal axs w
  = match draw_all ppath xpaths rzero czero (panels_for axs w) (opened axs w) with
    | (Ok _, w1) => (Ok tt, decorated equal (panels_for axs w) w1)
    | (Err e, w1) => (Err e, w1)
    end.
Proof.
  assert (Hcut : forall p w0,
    (match rzero with
     | Some r => ax_plot (fst p) r ppath dashed_style
     | None => ret tt
     end ;;
     match czero with
     | Some c => ax_plot (snd p) c ppath dashed_style
     | None => ret tt
     end ;;
     for_each xpaths (draw_path ppath p) ;;
     (if equal
      then set_aspect (fst p) AspectEqual ;; set_aspect (snd p) AspectEqual
      else ret tt) ;;
     set_xlabel (fst p) "Solution (Real)" ;;
     set_xlabel (snd p) "Solution (Imaginary)" ;;
     set_ylabel (fst p) "Parameter") w0
    = match draw_all ppath xpaths rzero czero p w0 with
      | (Ok _, w1) => (Ok tt, decorated equal p w1)
      | (Err e, w1) => (Err e, w1)
      end).
  { intros p w0. etransitivity; [apply bind3_cut |].
    unfold draw_all, bind at 1.
    destruct (bind _ _ w0) as [[[] | e] w1]; [apply decorate_runs | reflexivity]. }
  destruct axs as [p |]; apply Hcut.
Qed.

Lemma plot_homotopy_ok_inv (ppath : pyobj) (xpaths : list pyobj)
    (rzero czero : option pyobj) (equal : bool)
    (axs : option (handle * handle)) (w w' : World) :
  plot_homotopy ppath xpaths rzero czero equal axs w = (Ok tt, w') ->
  exists w1,
    draw_all ppath xpaths rzero czero (panels_for axs w) (opened axs w) = (Ok tt, w1) /\
    w' = decorated equal (panels_for axs w) w1.
Proof.
  rewrite plot_homotopy_unfold.
  destruct (draw_all _ _ _ _ _ _) as [[[] | e] w1]; intros H; [| discriminate H].
  exists w1. split; [reflexivity | now inversion H].
Qed.

(** ** Frames of the primitives and of the two bodies *)

Lemma hlines_preserves (R : World -> World -> Prop) (a : handle) (y lo hi : float) (kw : kwargs) :
  (forall w, R w (update_axes a (add_artist (HLines y lo hi kw)) w)) ->
  preserves R (hlines a y lo hi kw).
Proof. intros H w. apply H. Qed.

Lemma plot_on_preserves (R : World -> World -> Prop)
    (f : callable) (x0 x1 : float) (N : Z) (zero : option float) (kw : kwargs) (a : handle) :
  (forall w, R w w) ->
  (forall w1 w2 w3, R w1 w2 -> R w2 w3 -> R w1 w3) ->
  (forall x w, R w (log_call x w)) ->
  (forall x y w, R w (update_axes a (add_artist (Line2D x y kw)) w)) ->
  (zero <> None -> forall y lo hi w, R w (update_axes a (add_artist (HLines y lo hi zero_style)) w)) ->
  preserves R (plot_on f x0 x1 N zero kw a).
Proof.
  intros Hrefl Htrans Hlog Hline Hh. unfold plot_on.
  apply preserves_bind; [exact Htrans | now apply preserves_np_linspace | intros x].
  apply preserves_bind; [exact Htrans | now apply preserves_call | intros y].
  apply preserves_bind; [exact Htrans | now apply preserves_ax_plot | intros _].
  destruct zero as [z |].
  - apply preserves_bind; [exact Htrans | now apply preserves_get_xlim | intros lim].
    apply hlines_preserves. apply Hh. discriminate.
  - now apply preserves_ret.
Qed.

Lemma draw_path_preserves (R : World -> World -> Prop) (ppath : pyobj)
    (axs : handle * handle) (xp : pyobj) :
  (forall w, R w w) ->
  (forall w1 w2 w3, R w1 w2 -> R w2 w3 -> R w1 w3) ->
  (forall a x y kw w, R w (update_axes a (add_artist (Line2D x y kw)) w)) ->
  preserves R (draw_path ppath axs xp).
Proof.
  intros Hrefl Htrans Hline. unfold draw_path.
  apply preserves_bind; [exact Htrans | now apply preserves_lift | intros xr].
  apply preserves_bind; [exact Htrans | now apply preserves_lift | intros pr].
  apply preserves_bind; [exact Htrans | now apply preserves_ax_plot | intros _].
  apply preserves_bind; [exact Htrans | now apply preserves_lift | intros xi].
  apply preserves_bind; [exact Htrans | now apply preserves_lift | intros pr'].
  now apply preserves_ax_plot.
Qed.

Lemma draw_all_preserves (R : World -> World -> Prop) (ppath : pyobj)
    (xpaths : list pyobj) (rzero czero : option pyobj) (axs : handle * handle) :
  (forall w, R w w) ->
  (forall w1 w2 w3, R w1 w2 -> R w2 w3 -> R w1 w3) ->
  (forall a x y kw w, R w (update_axes a (add_artist (Line2D x y kw)) w)) ->
  preserves R (draw_all ppath xpaths rzero czero axs).
Proof.
  intros Hrefl Htrans Hline. unfold draw_all.
  apply preserves_bind; [exact Htrans | | intros _].
  { destruct rzero; [now apply preserves_ax_plot | now apply preserves_ret]. }
  apply preserves_bind; [exact Htrans | | intros _].
  { destruct czero; [now apply preserves_ax_plot | now apply preserves_ret]. }
  apply preserves_for_each; [exact Hrefl | exact Htrans |].
  intros xp. now apply draw_path_preserves.
Qed.

(** ** Independence from the palette *)

Lemma blind_ret {A} (a : A) : colors_blind (ret a).
Proof. intros c w. reflexivity. Qed.

Lemma blind_raise {A} (e : exn) : colors_blind (@raise A e).
Proof. intros c w. reflexivity. Qed.

Lemma blind_lift {A} (r : result A) : colors_blind (lift r).
Proof. intros c w. reflexivity. Qed.

Lemma blind_bind {A B} (m : M A) (k : A -> M B) :
  colors_blind m -> (forall a, colors_blind (k a)) -> colors_blind (bind m k).
Proof.
  intros Hm Hk c w. unfold bind. rewrite Hm.
  destruct (m w) as [[a | e] w1]; simpl; [apply Hk | reflexivity].
Qed.

Lemma blind_for_each {A} (body : A -> M unit) (l : list A) :
  (forall x, colors_blind (body x)) -> colors_blind (for_each l body).
Proof.
  intros Hb. induction l as [| x rest IH]; simpl.
  - apply blind_ret.
  - apply blind_bind; [apply Hb | intros _; exact IH].
Qed.

Lemma blind_subplots : colors_blind subplots.
Proof. intros c w. reflexivity. Qed.

Lemma blind_subplots2 : colors_blind subplots2.
Proof. intros c w. reflexivity. Qed.

Lemma blind_np_linspace (x0 x1 : float) (N : Z) : colors_blind (np_linspace x0 x1 N).
Proof.
  unfold np_linspace. destruct (linspace x0 x1 N); [apply blind_ret | apply blind_raise].
Qed.

Lemma blind_call (f : callable) (x : pyobj) : colors_blind (call f x).
Proof. intros c w. reflexivity. Qed.

Lemma blind_ax_plot (a : handle) (x y : pyobj) (kw : kwargs) : colors_blind (ax_plot a x y kw).
Proof.
  intros c w. unfold ax_plot. simpl.
  destruct (negb (len1d x =? len1d y)%nat); [reflexivity |].
  destruct (negb (forallb (accepts (mpl w)) kw)); reflexivity.
Qed.

Lemma blind_get_xlim (a : handle) : colors_blind (get_xlim a).
Proof. intros c w. reflexivity. Qed.

Lemma blind_hlines (a : handle) (y lo hi : float) (kw : kwargs) : colors_blind (hlines a y lo hi kw).
Proof. intros c w. reflexivity. Qed.

Lemma blind_set_aspect (a : handle) (v : aspect) : colors_blind (set_aspect a v).
Proof. intros c w. reflexivity. Qed.

Lemma blind_set_xlabel (a : handle) (s : string) : colors_blind (set_xlabel a s).
Proof. intros c w. reflexivity. Qed.

Lemma blind_set_ylabel (a : handle) (s : string) : colors_blind (set_ylabel a s).
Proof. intros c w. reflexivity. Qed.

Create HintDb blind.
#[local] Hint Resolve blind_ret blind_raise blind_lift blind_subplots blind_subplots2
  blind_np_linspace blind_call blind_ax_plot blind_get_xlim blind_hlines
  blind_set_aspect blind_set_xlabel blind_set_ylabel : blind.

Ltac blind_steps :=
  repeat (apply blind_bind; [| intros ?]); auto with blind.

Lemma blind_plot (f : callable) (x0 x1 : float) (N : Z) (ax : option handle)
    (zero : option float) (kw : kwargs) :
  colors_blind (plot f x0 x1 N ax zero kw).
Proof.
  unfold plot. blind_steps.
  - destruct ax; auto with blind.
  - destruct zero; blind_steps.
Qed.

Lemma blind_plot_homotopy (ppath : pyobj) (xpaths : list pyobj)
    (rzero czero : option pyobj) (equal : bool) (axs : option (handle * handle)) :
  colors_blind (plot_homotopy ppath xpaths rzero czero equal axs).
Proof.
  unfold plot_homotopy. blind_steps.
  - destruct axs; auto with blind.
  - destruct rzero; auto with blind.
  - destruct czero; auto with blind.
  - apply blind_for_each. intros xp. unfold draw_path. blind_steps.
  - destruct equal; blind_steps.
Qed.

(** ** The loop reads [ppath] through [.real] only *)

Lemma for_each_ext {A} (b1 b2 : A -> M unit) (l : list A) :
  (forall x w, b1 x w = b2 x w) -> forall w, for_each l b1 w = for_each l b2 w.
Proof.
  intros Hb. induction l as [| x rest IH]; intros w; simpl; [reflexivity |].
  unfold bind. rewrite Hb. destruct (b2 x w) as [[[] | e] w1]; [apply IH | reflexivity].
Qed.

Lemma draw_path_real (p1 p2 : pyobj) (axs : handle * handle) (xp : pyobj) (w : World) :
  getattr_real p1 = getattr_real p2 ->
  draw_path p1 axs xp w = draw_path p2 axs xp w.
Proof. intros H. unfold draw_path. now rewrite H. Qed.

(** ** What the closing statements leave on the panels *)

Ltac by_handles :=
  unfold decorated; simpl; unfold upd;
  repeat match goal with
         | |- context [Nat.eqb ?a ?b] => destruct (Nat.eqb_spec a b)
         end;
  simpl; try reflexivity; try congruence.

Lemma decorated_xlabel_fst (equal : bool) (p : handle * handle) (w : World) :
  fst p <> snd p ->
  xlabel (axes (decorated equal p w) (fst p)) = "Solution (Real)".
Proof. intros Hne. destruct equal; by_handles. Qed.

Lemma decorated_xlabel_snd (equal : bool) (p : handle * handle) (w : World) :
  xlabel (axes (decorated equal p w) (snd p)) = "Solution (Imaginary)".
Proof. destruct equal; by_handles. Qed.

Lemma decorated_ylabel_fst (equal : bool) (p : handle * handle) (w : World) :
  ylabel (axes (decorated equal p w) (fst p)) = "Parameter".
Proof. destruct equal; by_handles. Qed.

Lemma decorated_ylabel_snd (equal : bool) (p : handle * handle) (w : World) :
  fst p <> snd p ->
  ylabel (axes (decorated equal p w) (snd p)) = ylabel (axes w (snd p)).
Proof. intros Hne. destruct equal; by_handles. Qed.

Lemma decorated_aspect_equal (p : handle * handle) (w : World) :
  aspect_of (axes (decorated true p w) (fst p)) = AspectEqual /\
  aspect_of (axes (decorated true p w) (snd p)) = AspectEqual.
Proof. split; by_handles. Qed.

Lemma decorated_aspect_kept (p : handle * handle) (w : World) :
  kept aspect_of w (decorated false p w).
Proof. intros b. by_handles. Qed.

Lemma decorated_artists (equal : bool) (p : handle * handle) (w : World) :
  kept artists w (decorated equal p w).
Proof. intros b. destruct equal; by_handles. Qed.

(** ** Strokes *)

Lemma on_app (b : handle) (l1 l2 : list stroke) : on b (l1 ++ l2) = on b l1 ++ on b l2.
Proof. unfold on. now rewrite filter_app, map_app. Qed.

Lemma apply_strokes_app (l1 l2 : list stroke) (w : World) :
  apply_strokes (l1 ++ l2) w = apply_strokes l2 (apply_strokes l1 w).
Proof. unfold apply_strokes. apply fold_left_app. Qed.

Lemma apply_strokes_artists (l : list stroke) (w : World) (b : handle) :
  artists (axes (apply_strokes l w) b) = artists (axes w b) ++ on b l.
Proof.
  revert w. induction l as [| [a x] rest IH]; intros w.
  - simpl. now rewrite app_nil_r.
  - change (apply_strokes ((a, x) :: rest) w)
      with (apply_strokes rest (update_axes a (add_artist x) w)).
    rewrite IH. unfold on. simpl. unfold upd.
    destruct (Nat.eqb_spec a b) as [-> | Hne].
    + rewrite Nat.eqb_refl. simpl. now rewrite <- app_assoc.
    + assert (Hba : b <> a) by congruence.
      apply Nat.eqb_neq in Hba. now rewrite Hba.
Qed.

(** ** Attribute access *)

Lemma has_parts_real (o : pyobj) : has_parts o = true -> getattr_real o = Ok (re_data o).
Proof. unfold has_parts, re_data. now destruct (getattr_real o). Qed.

Lemma has_parts_imag (o : pyobj) : has_parts o = true -> getattr_imag o = Ok (im_data o).
Proof. destruct o; simpl; intros H; solve [reflexivity | discriminate H]. Qed.

Lemma lacks_parts_real (o : pyobj) : has_parts o = false -> getattr_real o = Err AttributeError.
Proof. destruct o; simpl; intros H; solve [reflexivity | discriminate H]. Qed.

Lemma len1d_re_data (o : pyobj) : len1d (re_data o) = len1d o.
Proof. destruct o; simpl; try reflexivity. apply length_map. Qed.

Lemma len1d_im_data (o : pyobj) : len1d (im_data o) = len1d o.
Proof. destruct o; simpl; try reflexivity. apply length_map. Qed.

(** ** One plotting call, then the whole drawing part *)

Lemma ax_plot_ok (a : handle) (x y : pyobj) (kw : kwargs) (w : World) :
  len1d x = len1d y -> forallb (accepts (mpl w)) kw = true ->
  ax_plot a x y kw w = (Ok tt, update_axes a (add_artist (Line2D x y kw)) w).
Proof.
  intros Hlen Hkw. unfold ax_plot. rewrite Hlen, Nat.eqb_refl, Hkw. reflexivity.
Qed.

Lemma draw_path_ok (ppath : pyobj) (axs : handle * handle) (xp : pyobj) (w : World) :
  has_parts ppath = true -> path_fits ppath xp ->
  draw_path ppath axs xp w = (Ok tt, apply_strokes (path_strokes ppath axs xp) w).
Proof.
  intros Hp [Hx Hlen]. unfold draw_path, bind, lift.
  rewrite (has_parts_real _ Hx), (has_parts_real _ Hp), (has_parts_imag _ Hx).
  rewrite ax_plot_ok; [| now rewrite len1d_re_data, len1d_re_data | reflexivity].
  rewrite ax_plot_ok; [| now rewrite len1d_im_data, len1d_re_data | reflexivity].
  reflexivity.
Qed.

Lemma draw_path_no_real (ppath : pyobj) (axs : handle * handle) (xp : pyobj) (w : World) :
  has_parts xp = false -> draw_path ppath axs xp w = (Err AttributeError, w).
Proof.
  intros Hx. unfold draw_path, bind, lift. now rewrite (lacks_parts_real _ Hx).
Qed.

Lemma draw_path_no_ppath_real (ppath : pyobj) (axs : handle * handle) (xp : pyobj) (w : World) :
  has_parts ppath = false -> draw_path ppath axs xp w = (Err AttributeError, w).
Proof.
  intros Hp. unfold draw_path, bind, lift. rewrite (lacks_parts_real _ Hp).
  now destruct (getattr_real xp) as [xr | []] eqn:Hx; try reflexivity;
    destruct xp; simpl in Hx; try discriminate Hx.
Qed.

Lemma loop_ok (ppath : pyobj) (axs : handle * handle) (xpaths : list pyobj) (w : World) :
  has_parts ppath = true -> Forall (path_fits ppath) xpaths ->
  for_each xpaths (draw_path ppath axs) w
  = (Ok tt, apply_strokes (flat_map (path_strokes ppath axs) xpaths) w).
Proof.
  intros Hp Hall. revert w. induction Hall as [| xp rest Hxp _ IH]; intros w.
  - reflexivity.
  - simpl for_each. rewrite (bind_ok _ _ _ _ _ (draw_path_ok ppath axs xp w Hp Hxp)).
    rewrite IH. reflexivity.
Qed.

Lemma loop_stops (ppath : pyobj) (axs : handle * handle)
    (pre : list pyobj) (bad : pyobj) (post : list pyobj) (w : World) :
  has_parts ppath = true -> Forall (path_fits ppath) pre -> has_parts bad = false ->
  for_each (pre ++ bad :: post) (draw_path ppath axs) w
  = (Err AttributeError, apply_strokes (flat_map (path_strokes ppath axs) pre) w).
Proof.
  intros Hp Hall Hbad. revert w. induction Hall as [| xp rest Hxp _ IH]; intros w.
  - simpl. now rewrite (bind_err _ _ _ _ _ (draw_path_no_real ppath axs bad w Hbad)).
  - simpl app. simpl for_each. rewrite (bind_ok _ _ _ _ _ (draw_path_ok ppath axs xp w Hp Hxp)).
    rewrite IH. reflexivity.
Qed.

Lemma refs_ok (ppath : pyobj) (rzero czero : option pyobj) (axs : handle * handle)
    (w : World) {A} (k : M A) :
  ref_fits w rzero ppath -> ref_fits w czero ppath ->
  (match rzero with
   | Some r => ax_plot (fst axs) r ppath dashed_style
   | None => ret tt
   end ;;
   match czero with
   | Some c => ax_plot (snd axs) c ppath dashed_style
   | None => ret tt
   end ;;
   k) w
  = k (apply_strokes (ref_strokes (fst axs) rzero ppath
                      ++ ref_strokes (snd axs) czero ppath) w).
Proof.
  intros Hr Hc. unfold bind.
  destruct rzero as [r |], czero as [c |]; simpl in *.
  - destruct Hr as [Hr1 Hr2], Hc as [Hc1 Hc2].
    rewrite ax_plot_ok by assumption. rewrite ax_plot_ok by assumption. reflexivity.
  - destruct Hr as [Hr1 Hr2]. rewrite ax_plot_ok by assumption. reflexivity.
  - destruct Hc as [Hc1 Hc2]. rewrite ax_plot_ok by assumption. reflexivity.
  - reflexivity.
Qed.

Lemma draw_all_ok (ppath : pyobj) (xpaths : list pyobj) (rzero czero : option pyobj)
    (axs : handle * handle) (w : World) :
  ref_fits w rzero ppath -> ref_fits w czero ppath ->
  has_parts ppath = true -> Forall (path_fits ppath) xpaths ->
  draw_all ppath xpaths rzero czero axs w
  = (Ok tt, apply_strokes (homotopy_strokes ppath xpaths rzero czero axs) w).
Proof.
  intros Hr Hc Hp Hall. unfold draw_all. rewrite refs_ok by assumption.
  rewrite loop_ok by assumption.
  unfold homotopy_strokes. now rewrite !apply_strokes_app.
Qed.

Lemma draw_all_stops (ppath : pyobj) (pre : list pyobj) (bad : pyobj) (post : list pyobj)
    (rzero czero : option pyobj) (axs : handle * handle) (w : World) :
  ref_fits w rzero ppath -> ref_fits w czero ppath ->
  Forall (path_fits ppath) pre ->
  (has_parts ppath = false /\ pre = []) \/ (has_parts ppath = true /\ has_parts bad = false) ->
  draw_all ppath (pre ++ bad :: post) rzero czero axs w
  = (Err AttributeError, apply_strokes (homotopy_strokes ppath pre rzero czero axs) w).
Proof.
  intros Hr Hc Hall Hcase. unfold draw_all. rewrite refs_ok by assumption.
  unfold homotopy_strokes. rewrite !apply_strokes_app.
  destruct Hcase as [[Hp ->] | [Hp Hbad]].
  - simpl. now rewrite (bind_err _ _ _ _ _ (draw_path_no_ppath_real ppath axs bad _ Hp)).
  - now apply loop_stops.
Qed.

(** ** A complete run of [plot_homotopy] *)

Lemma ref_fits_opened (axs : option (handle * handle)) (w : World)
    (zero : option pyobj) (ppath : pyobj) :
  ref_fits w zero ppath -> ref_fits (opened axs w) zero ppath.
Proof. destruct axs; [trivial |]. destruct zero; trivial. Qed.

Lemma plot_homotopy_ok (ppath : pyobj) (xpaths : list pyobj) (rzero czero : option pyobj)
    (equal : bool) (axs : option (handle * handle)) (w : World) :
  ref_fits w rzero ppath -> ref_fits w czero ppath ->
  has_parts ppath = true -> Forall (path_fits ppath) xpaths ->
  plot_homotopy ppath xpaths rzero czero equal axs w
  = (Ok tt,
     decorated equal (panels_for axs w)
       (apply_strokes (homotopy_strokes ppath xpaths rzero czero (panels_for axs w))
          (opened axs w))).
Proof.
  intros Hr Hc Hp Hall. rewrite plot_homotopy_unfold.
  rewrite draw_all_ok; auto using ref_fits_opened.
Qed.

Lemma plot_homotopy_stops (ppath : pyobj) (pre : list pyobj) (bad : pyobj)
    (post : list pyobj) (rzero czero : option pyobj)
    (equal : bool) (axs : option (handle * handle)) (w : World) :
  ref_fits w rzero ppath -> ref_fits w czero ppath ->
  Forall (path_fits ppath) pre ->
  (has_parts ppath = false /\ pre = []) \/ (has_parts ppath = true /\ has_parts bad = false) ->
  plot_homotopy ppath (pre ++ bad :: post) rzero czero equal axs w
  = (Err AttributeError,
     apply_strokes (homotopy_strokes ppath pre rzero czero (panels_for axs w))
       (opened axs w)).
Proof.
  intros Hr Hc Hall Hcase. rewrite plot_homotopy_unfold.
  rewrite draw_all_stops; auto using ref_fits_opened.
Qed.

Lemma decorated_strokes_artists (equal : bool) (p : handle * handle)
    (l : list stroke) (w : World) (b : handle) :
  artists (axes (decorated equal p (apply_strokes l w)) b) = artists (axes w b) ++ on b l.
Proof. rewrite decorated_artists. apply apply_strokes_artists. Qed.

Lemma on_ref_same (a : handle) (zero : option pyobj) (ppath : pyobj) :
  on a (ref_strokes a zero ppath) = map snd (ref_strokes a zero ppath).
Proof. destruct zero; unfold on; simpl; [now rewrite Nat.eqb_refl | reflexivity]. Qed.

Lemma on_ref_other (a b : handle) (zero : option pyobj) (ppath : pyobj) :
  a <> b -> on b (ref_strokes a zero ppath) = [].
Proof.
  intros Hne. apply Nat.eqb_neq in Hne.
  destruct zero; unfold on; simpl; [now rewrite Hne | reflexivity].
Qed.

Lemma on_paths_fst (ppath : pyobj) (p : handle * handle) (xpaths : list pyobj) :
  fst p <> snd p ->
  on (fst p) (flat_map (path_strokes ppath p) xpaths) = map (real_curve ppath) xpaths.
Proof.
  intros Hne. assert (H : (snd p =? fst p)%nat = false) by (apply Nat.eqb_neq; congruence).
  unfold on. induction xpaths as [| xp rest IH]; [reflexivity |].
  simpl. rewrite Nat.eqb_refl, H. simpl. now f_equal.
Qed.

Lemma on_paths_snd (ppath : pyobj) (p : handle * handle) (xpaths : list pyobj) :
  fst p <> snd p ->
  on (snd p) (flat_map (path_strokes ppath p) xpaths) = map (imag_curve ppath) xpaths.
Proof.
  intros Hne. apply Nat.eqb_neq in Hne.
  unfold on. induction xpaths as [| xp rest IH]; [reflexivity |].
  simpl. rewrite Nat.eqb_refl, Hne. simpl. now f_equal.
Qed.

Lemma homotopy_strokes_fst (ppath : pyobj) (xpaths : list pyobj)
    (rzero czero : option pyobj) (p : handle * handle) :
  fst p <> snd p ->
  on (fst p) (homotopy_strokes ppath xpaths rzero czero p)
  = map snd (ref_strokes (fst p) rzero ppath) ++ map (real_curve ppath) xpaths.
Proof.
  intros Hne. unfold homotopy_strokes. rewrite !on_app, on_ref_same.
  rewrite on_ref_other by congruence. now rewrite on_paths_fst.
Qed.

Lemma homotopy_strokes_snd (ppath : pyobj) (xpaths : list pyobj)
    (rzero czero : option pyobj) (p : handle * handle) :
  fst p <> snd p ->
  on (snd p) (homotopy_strokes ppath xpaths rzero czero p)
  = map snd (ref_strokes (snd p) czero ppath) ++ map (imag_curve ppath) xpaths.
Proof.
  intros Hne. unfold homotopy_strokes. rewrite !on_app, on_ref_same.
  rewrite on_ref_other by exact Hne. now rewrite on_paths_snd.
Qed.

Lemma re_data_real_valued (o : pyobj) : real_valued o -> has_parts o = true -> re_data o = o.
Proof.
  unfold real_valued, re_data, has_parts.
  destruct o as [n | l | l]; simpl; intros Hre Hp.
  - inversion Hre as [| ? ? Hn _]. now rewrite <- Hn.
  - discriminate Hp.
  - f_equal. induction Hre as [| n rest Hn _ IH]; [reflexivity |].
    simpl. now rewrite <- Hn, IH.
Qed.

Lemma panels_distinct_created (w : World) :
  fst (panels_for None w) <> snd (panels_for None w).
Proof. simpl. apply Nat.neq_succ_diag_r. Qed.

Lemma draw_all_kept {T} (proj : Axes -> T) (ppath : pyobj) (xpaths : list pyobj)
    (rzero czero : option pyobj) (axs : handle * handle) (w : World) :
  (forall x ax, proj (add_artist x ax) = proj ax) ->
  kept proj w (snd (draw_all ppath xpaths rzero czero axs w)).
Proof.
  intros Hadd. apply draw_all_preserves.
  - apply kept_refl.
  - apply kept_trans.
  - intros a x y kw w0. apply kept_update. intros ax. apply Hadd.
Qed.

(** ** The sample grid *)

Lemma nth_map_in {A B} (h : A -> B) (l : list A) (i : nat) (d : B) (d' : A) :
  (i < length l)%nat -> nth i (map h l) d = h (nth i l d').
Proof.
  intros Hi. rewrite (nth_indep _ d (h d')) by now rewrite length_map.
  apply map_nth.
Qed.

Lemma length_arange (n : Z) : length (arange n) = Z.to_nat n.
Proof. unfold arange. now rewrite length_map, length_seq. Qed.

Lemma nth_arange (n : Z) (i : nat) :
  (i < Z.to_nat n)%nat -> nth i (arange n) 0 = float_of_int (Z.of_nat i).
Proof.
  intros Hi. unfold arange.
  rewrite (nth_map_in _ _ _ _ 0%nat) by now rewrite length_seq.
  now rewrite seq_nth.
Qed.

Lemma length_set_last (l : list float) (v : float) :
  l <> [] -> length (set_last l v) = length l.
Proof.
  intros Hl. unfold set_last. rewrite length_app, length_firstn. simpl.
  destruct l; [contradiction | simpl; lia].
Qed.

Lemma nth_set_last_before (l : list float) (v : float) (i : nat) :
  (i < length l - 1)%nat -> nth i (set_last l v) 0 = nth i l 0.
Proof.
  intros Hi. unfold set_last.
  rewrite app_nth1 by (rewrite length_firstn; lia).
  rewrite nth_firstn. now apply Nat.ltb_lt in Hi as ->.
Qed.

Lemma nth_set_last_at (l : list float) (v : float) :
  nth (length l - 1) (set_last l v) 0 = v.
Proof.
  unfold set_last. rewrite app_nth2 by (rewrite length_firstn; lia).
  rewrite length_firstn.
  replace (length l - 1 - Nat.min (length l - 1) (length l))%nat with 0%nat by lia.
  reflexivity.
Qed.

(** With at least two samples, [linspace] scales the indices by the step, or
    divides them first when the step compares equal to zero, and overwrites
    the last sample with [x1]. *)
Lemma linspace_ramp (x0 x1 : float) (N : Z) :
  (2 <= N)%Z ->
  exists h : float -> float,
    (forall i, h (float_of_int (Z.of_nat i)) + x0 = grid_point x0 x1 N i) /\
    linspace x0 x1 N = Ok (set_last (map (fun v => v + x0) (map h (arange N))) x1).
Proof.
  intros HN. unfold linspace, grid_point, grid_step.
  assert (H0 : (N <? 0)%Z = false) by (apply Z.ltb_ge; lia).
  assert (H1 : (0 <? N - 1)%Z = true) by (apply Z.ltb_lt; lia).
  assert (H2 : (1 <? N)%Z = true) by (apply Z.ltb_lt; lia).
  rewrite H0, H1, H2.
  destruct ((x1 - x0) / float_of_int (N - 1) =? 0);
    eexists; (split; [| reflexivity]); intros i; reflexivity.
Qed.

Lemma linspace_length (x0 x1 : float) (N : Z) :
  (0 <= N)%Z ->
  exists g, linspace x0 x1 N = Ok g /\ length g = Z.to_nat N.
Proof.
  intros HN. unfold linspace.
  assert (H0 : (N <? 0)%Z = false) by (apply Z.ltb_ge; lia).
  rewrite H0. eexists. split; [reflexivity |].
  assert (Hlen : forall h1 h2 : float -> float,
            length (map h2 (map h1 (arange N))) = Z.to_nat N)
    by (intros; now rewrite !length_map, length_arange).
  destruct (1 <? N)%Z eqn:H2.
  - apply Z.ltb_lt in H2. rewrite length_set_last.
    + destruct (0 <? N - 1)%Z; [destruct (_ =? 0) |]; apply Hlen.
    + intros Hnil. apply (f_equal (@length float)) in Hnil. simpl in Hnil.
      destruct (0 <? N - 1)%Z; [destruct (_ =? 0) |];
        rewrite Hlen in Hnil; lia.
  - destruct (0 <? N - 1)%Z; [destruct (_ =? 0) |]; apply Hlen.
Qed.

Lemma linspace_single (x0 x1 : float) : linspace x0 x1 1 = Ok [0 * (x1 - x0) + x0].
Proof. reflexivity. Qed.

Lemma linspace_nth (x0 x1 : float) (N : Z) (g : list float) (i : nat) :
  (2 <= N)%Z -> linspace x0 x1 N = Ok g -> (i < Z.to_nat N - 1)%nat ->
  nth i g 0 = grid_point x0 x1 N i.
Proof.
  intros HN Hg Hi. destruct (linspace_ramp x0 x1 N HN) as (h & Hh & Heq).
  rewrite Heq in Hg. injection Hg as <-.
  rewrite nth_set_last_before by (rewrite !length_map, length_arange; exact Hi).
  rewrite (nth_map_in _ _ _ _ 0) by (rewrite length_map, length_arange; lia).
  rewrite (nth_map_in _ _ _ _ 0) by (rewrite length_arange; lia).
  rewrite nth_arange by lia. apply Hh.
Qed.

Lemma linspace_last (x0 x1 : float) (N : Z) (g : list float) :
  (2 <= N)%Z -> linspace x0 x1 N = Ok g ->
  last g 0 = x1 /\ nth (Z.to_nat N - 1) g 0 = x1.
Proof.
  intros HN Hg. destruct (linspace_ramp x0 x1 N HN) as (h & _ & Heq).
  rewrite Heq in Hg. injection Hg as <-. split.
  - unfold set_last. apply last_last.
  - pose proof (nth_set_last_at (map (fun v => v + x0) (map h (arange N))) x1) as H.
    now rewrite !length_map, length_arange in H.
Qed.

(** ** Binary64 facts the first sample rests on *)

Lemma SFeqb_refl (p : spec_float) : p <> S754_nan -> SFeqb p p = true.
Proof.
  unfold SFeqb, SFcompare. destruct p as [s | s | | s m e]; intros Hp.
  - reflexivity.
  - now destruct s.
  - contradiction.
  - destruct s; now rewrite Z.compare_refl, Pos.compare_cont_refl.
Qed.

Lemma ltb_not_nan (x y : float) : (x <? y) = true -> Prim2SF x <> S754_nan.
Proof.
  rewrite FloatAxioms.ltb_spec. unfold SFltb, SFcompare. intros H Hx. rewrite Hx in H.
  discriminate H.
Qed.

Lemma is_finite_spec (x : float) :
  is_finite x = true ->
  (exists s, Prim2SF x = S754_zero s) \/ (exists s m e, Prim2SF x = S754_finite s m e).
Proof.
  unfold is_finite, is_nan, is_infinity. rewrite !FloatAxioms.eqb_spec, FloatAxioms.abs_spec.
  change (Prim2SF infinity) with (S754_infinity false).
  destruct (Prim2SF x) as [s | s | | s m e]; intros H.
  - left. now exists s.
  - destruct s; cbv in H; discriminate H.
  - cbv in H. discriminate H.
  - right. now exists s, m, e.
Qed.

(** Zero times a finite number is a zero. *)
Lemma zero_mul_finite (x : float) :
  is_finite x = true -> exists s, Prim2SF (0 * x) = S754_zero s.
Proof.
  intros Hx. rewrite FloatAxioms.mul_spec. change (Prim2SF 0) with (S754_zero false).
  destruct (is_finite_spec x Hx) as [[s ->] | (s & m & e & ->)]; simpl; eauto.
Qed.

(** When [delta / d] compares equal to zero, [0 / d * delta] is a zero. *)
Lemma zero_div_mul (delta d : float) :
  (delta / d =? 0) = true -> exists s, Prim2SF (0 / d * delta) = S754_zero s.
Proof.
  rewrite FloatAxioms.eqb_spec, FloatAxioms.mul_spec, !FloatAxioms.div_spec.
  change (Prim2SF 0) with (S754_zero false).
  destruct (Prim2SF delta) as [sa | sa | | sa ma ea], (Prim2SF d) as [sb | sb | | sb mb eb];
    intros H;
    repeat match goal with b : bool |- _ => destruct b end;
    cbv [SF64div SFdiv SF64mul SFmul SFeqb SFcompare xorb] in H |- *;
    solve [discriminate H | eauto].
Qed.

(** A zero added to a number that is not NaN compares equal to it. *)
Lemma zero_add_eqb (z x : float) (s : bool) :
  Prim2SF z = S754_zero s -> Prim2SF x <> S754_nan -> (z + x =? x) = true.
Proof.
  intros Hz Hx. rewrite FloatAxioms.eqb_spec, FloatAxioms.add_spec, Hz.
  destruct (Prim2SF x) as [sx | sx | | sx mx ex] eqn:Ex.
  - unfold SF64add, SFadd. now destruct s, sx.
  - unfold SF64add, SFadd. now destruct sx.
  - contradiction.
  - unfold SF64add, SFadd. now apply SFeqb_refl.
Qed.

Lemma grid_point_first (x0 x1 : float) (N : Z) :
  (x0 <? x1) = true -> is_finite (grid_step x0 x1 N) = true ->
  (grid_point x0 x1 N 0 =? x0) = true.
Proof.
  intros Hlt Hfin. apply ltb_not_nan in Hlt. unfold grid_point.
  change (float_of_int (Z.of_nat 0)) with 0.
  destruct (grid_step x0 x1 N =? 0) eqn:Hstep.
  - destruct (zero_div_mul _ _ Hstep) as [s Hs]. now apply (zero_add_eqb _ _ s).
  - destruct (zero_mul_finite _ Hfin) as [s Hs]. now apply (zero_add_eqb _ _ s).
Qed.

Lemma single_point_first (x0 x1 : float) :
  (x0 <? x1) = true -> is_finite (x1 - x0) = true ->
  (0 * (x1 - x0) + x0 =? x0) = true.
Proof.
  intros Hlt Hfin. apply ltb_not_nan in Hlt.
  destruct (zero_mul_finite _ Hfin) as [s Hs]. now apply (zero_add_eqb _ _ s).
Qed.

(** ** A run of [plot] *)

Lemma plot_on_calls (f : callable) (x0 x1 : float) (N : Z) (zero : option float)
    (kw : kwargs) (a : handle) (w : World) (g : list float) :
  linspace x0 x1 N = Ok g ->
  calls (snd (plot_on f x0 x1 N zero kw a w)) = calls w ++ [NdArray (map Real g)].
Proof.
  intros Hg. unfold plot_on, np_linspace, bind, call, ret. rewrite Hg.
  destruct (f (NdArray (map Real g))) as [y | e]; [| reflexivity].
  unfold ax_plot.
  destruct (negb _); [reflexivity |].
  destruct (negb _); [reflexivity |].
  destruct zero; reflexivity.
Qed.

Lemma plot_on_ok (f : callable) (x0 x1 : float) (N : Z) (zero : option float)
    (kw : kwargs) (a : handle) (w : World) (g : list float) (y : pyobj) :
  linspace x0 x1 N = Ok g ->
  f (NdArray (map Real g)) = Ok y ->
  len1d y = length g ->
  forallb (accepts (mpl w)) kw = true ->
  plot_on f x0 x1 N zero kw a w
  = (Ok tt, plotted a (NdArray (map Real g)) y kw zero w).
Proof.
  intros Hg Hf Hlen Hkw. unfold plot_on, np_linspace, bind, call, ret.
  rewrite Hg, Hf. rewrite ax_plot_ok.
  - destruct zero; reflexivity.
  - simpl. now rewrite length_map.
  - exact Hkw.
Qed.

Lemma plotted_artists (a : handle) (x y : pyobj) (kw : kwargs) (zero : option float) (w : World) :
  artists (axes (plotted a x y kw zero w) a)
  = artists (axes w a)
    ++ Line2D x y kw
       :: match zero with
          | Some z =>
              [HLines z
                 (fst (xlim_of (mpl w) (add_artist (Line2D x y kw) (axes w a))))
                 (snd (xlim_of (mpl w) (add_artist (Line2D x y kw) (axes w a))))
                 zero_style]
          | None => []
          end.
Proof.
  unfold plotted. destruct zero as [z |]; simpl; rewrite !upd_same; simpl.
  - now rewrite <- app_assoc.
  - reflexivity.
Qed.

Lemma mpl_readied (ax : option handle) (w : World) : mpl (readied ax w) = mpl w.
Proof. now destruct ax. Qed.

Lemma calls_readied (ax : option handle) (w : World) : calls (readied ax w) = calls w.
Proof. now destruct ax. Qed.

Lemma hlines_of_add_line (x y : pyobj) (kw : kwargs) (ax : Axes) :
  hlines_of (add_artist (Line2D x y kw) ax) = hlines_of ax.
Proof. unfold hlines_of. simpl. rewrite filter_app. simpl. apply app_nil_r. Qed.

(** * The claims *)

(** C5. A call of [plot] with a surface supplied creates no figure and no
    axes and changes nothing outside that surface; a call with none creates
    exactly one figure holding exactly one axes, and changes nothing outside
    it.  Both hold whether or not the call raises. *)
Theorem plot_surface (f : callable) (x0 x1 : float) (N : Z) (ax : option handle)
    (zero : option float) (kw : kwargs) (w : World) :
  match ax with
  | Some a => framed a w (snd (plot f x0 x1 N (Some a) zero kw w))
  | None =>
      figures (snd (plot f x0 x1 N None zero kw w))
        = figures w ++ [mkFigure None [fresh w]] /\
      fresh (snd (plot f x0 x1 N None zero kw w)) = S (fresh w) /\
      forall b, b <> fresh w ->
        axes (snd (plot f x0 x1 N None zero kw w)) b = axes w b
  end.
Proof.
  assert (Hon : forall a, preserves (framed a) (plot_on f x0 x1 N zero kw a)).
  { intros a. apply plot_on_preserves.
    - apply framed_refl.
    - apply framed_trans.
    - intros x w0. apply framed_log_call.
    - intros x y w0. apply framed_update.
    - intros _ y lo hi w0. apply framed_update. }
  destruct ax as [a |]; rewrite plot_unfold; unfold surface_for, readied.
  - apply Hon.
  - destruct (Hon (fresh w) (snd (subplots w))) as (Hf & Hn & Ha).
    rewrite Hf, Hn. repeat split.
    intros b Hb. rewrite (Ha b Hb). simpl. now apply upd_other.
Qed.

(** C7 (as the code has it). A call of [plot_homotopy] that completes, on
    two distinct panels, leaves panel 1 with x-label "Solution (Real)" and
    y-label "Parameter" and panel 2 with x-label "Solution (Imaginary)"; the
    y-label of panel 2 is never set: it is what it was on a supplied panel,
    and empty on a created one. *)
Theorem plot_homotopy_labels (ppath : pyobj) (xpaths : list pyobj)
    (rzero czero : option pyobj) (equal : bool)
    (axs : option (handle * handle)) (w w' : World) :
  plot_homotopy ppath xpaths rzero czero equal axs w = (Ok tt, w') ->
  fst (panels_for axs w) <> snd (panels_for axs w) ->
  xlabel (axes w' (fst (panels_for axs w))) = "Solution (Real)" /\
  xlabel (axes w' (snd (panels_for axs w))) = "Solution (Imaginary)" /\
  ylabel (axes w' (fst (panels_for axs w))) = "Parameter" /\
  ylabel (axes w' (snd (panels_for axs w)))
    = match axs with
      | Some p => ylabel (axes w (snd p))
      | None => ""
      end.
Proof.
  intros Hrun Hne.
  destruct (plot_homotopy_ok_inv _ _ _ _ _ _ _ _ Hrun) as (w1 & Hdraw & ->).
  assert (Hy : kept ylabel (opened axs w) w1).
  { replace w1 with (snd (draw_all ppath xpaths rzero czero (panels_for axs w) (opened axs w)))
      by now rewrite Hdraw.
    now apply draw_all_kept. }
  repeat split.
  - now apply decorated_xlabel_fst.
  - apply decorated_xlabel_snd.
  - apply decorated_ylabel_fst.
  - rewrite decorated_ylabel_snd by exact Hne. rewrite Hy.
    destruct axs as [q |]; simpl; [reflexivity |].
    unfold upd. now rewrite Nat.eqb_refl.
Qed.

(** C9. With [rzero] and [czero] omitted, [plot_homotopy] reads [ppath]
    through [ppath.real] only: two calls whose [ppath] have the same real
    part, on the same [xpaths] and from the same world, have the same
    outcome and leave the same world, so they draw the same curves. *)
Theorem plot_homotopy_real_part_only (p1 p2 : pyobj) (xpaths : list pyobj)
    (equal : bool) (axs : option (handle * handle)) (w : World) :
  getattr_real p1 = getattr_real p2 ->
  plot_homotopy p1 xpaths None None equal axs w
  = plot_homotopy p2 xpaths None None equal axs w.
Proof.
  intros Hreal. rewrite !plot_homotopy_unfold. unfold draw_all, bind. simpl.
  rewrite (for_each_ext (draw_path p1 (panels_for axs w)) (draw_path p2 (panels_for axs w))).
  - reflexivity.
  - intros xp w0. now apply draw_path_real.
Qed.

(** C10. Neither function consults the module-level palette [colors]: run
    with any other palette, each gives the same outcome and leaves the same
    world, the palette itself apart, which it does not touch. *)
Theorem colors_never_read (c : list string) (w : World) :
  (forall f x0 x1 N ax zero kw,
     plot f x0 x1 N ax zero kw (set_colors c w)
     = (fst (plot f x0 x1 N ax zero kw w),
        set_colors c (snd (plot f x0 x1 N ax zero kw w)))) /\
  (forall ppath xpaths rzero czero equal axs,
     plot_homotopy ppath xpaths rzero czero equal axs (set_colors c w)
     = (fst (plot_homotopy ppath xpaths rzero czero equal axs w),
        set_colors c (snd (plot_homotopy ppath xpaths rzero czero equal axs w)))).
Proof.
  split; intros.
  - apply blind_plot.
  - apply blind_plot_homotopy.
Qed.

(** C2 (as the code has it). When [ppath] and every entry of [xpaths] have
    real and imaginary parts (numbers or numpy arrays), every entry is as long
    as [ppath], the reference data fits, and the two panels are distinct, the
    call completes and each panel gains, after its reference curve if any,
    exactly one solution curve per entry of [xpaths], in order: on panel 1
    with the real part of the entry as x-data, on panel 2 with its imaginary
    part, both with the real part of [ppath] as y-data, which is [ppath]
    itself when [ppath] is real. *)
Theorem plot_homotopy_curves (ppath : pyobj) (xpaths : list pyobj)
    (rzero czero : option pyobj) (equal : bool)
    (axs : option (handle * handle)) (w : World) :
  fst (panels_for axs w) <> snd (panels_for axs w) ->
  has_parts ppath = true ->
  Forall (path_fits ppath) xpaths ->
  ref_fits w rzero ppath -> ref_fits w czero ppath ->
  exists w',
    plot_homotopy ppath xpaths rzero czero equal axs w = (Ok tt, w') /\
    artists (axes w' (fst (panels_for axs w)))
      = artists (axes (opened axs w) (fst (panels_for axs w)))
        ++ map snd (ref_strokes (fst (panels_for axs w)) rzero ppath)
        ++ map (fun xp => Line2D (re_data xp) (re_data ppath) []) xpaths /\
    artists (axes w' (snd (panels_for axs w)))
      = artists (axes (opened axs w) (snd (panels_for axs w)))
        ++ map snd (ref_strokes (snd (panels_for axs w)) czero ppath)
        ++ map (fun xp => Line2D (im_data xp) (re_data ppath) []) xpaths /\
    (real_valued ppath -> re_data ppath = ppath).
Proof.
  intros Hne Hp Hall Hr Hc.
  eexists. split; [now apply plot_homotopy_ok |].
  rewrite !decorated_strokes_artists.
  rewrite homotopy_strokes_fst, homotopy_strokes_snd by exact Hne.
  repeat split. intros Hre. now apply re_data_real_valued.
Qed.

(** C3 (as the code has it). With numpy arrays,
    [plot_homotopy(np.array([0,1,2]), [np.array([1+1j, 2+2j, 3+3j])])]
    completes and draws on each of the two panels it creates one curve
    through (1,0), (2,1), (3,2). *)
Theorem plot_homotopy_scenario_arrays (w : World) :
  fst (plot_homotopy (NdArray ppath_nums) [NdArray xpath_nums] None None true None w)
    = Ok tt /\
  map curve_points
    (artists (axes (snd (plot_homotopy (NdArray ppath_nums) [NdArray xpath_nums]
                           None None true None w)) (fresh w)))
    = [[(1, 0); (2, 1); (3, 2)]] /\
  map curve_points
    (artists (axes (snd (plot_homotopy (NdArray ppath_nums) [NdArray xpath_nums]
                           None None true None w)) (S (fresh w))))
    = [[(1, 0); (2, 1); (3, 2)]].
Proof.
  rewrite plot_homotopy_ok; try exact I; try reflexivity.
  2: { repeat constructor. }
  cbn [fst snd].
  pose proof (panels_distinct_created w) as Hne.
  change (fresh w) with (fst (panels_for None w)).
  change (S (fst (panels_for None w))) with (snd (panels_for None w)).
  rewrite !decorated_strokes_artists.
  rewrite homotopy_strokes_fst, homotopy_strokes_snd by exact Hne.
  simpl. unfold upd. rewrite !Nat.eqb_refl.
  assert (H : (fresh w =? S (fresh w))%nat = false)
    by (apply Nat.eqb_neq, Nat.neq_succ_diag_r).
  rewrite H. repeat split.
Qed.

(** C6 (as the code has it). With [equal] false no call, completing or not,
    changes the aspect of any axes: supplied panels keep theirs and created
    panels keep the library's ['auto']. With [equal] true a call that
    completes leaves both panels with aspect ['equal']. *)
Theorem plot_homotopy_aspect (ppath : pyobj) (xpaths : list pyobj)
    (rzero czero : option pyobj) (axs : option (handle * handle)) (w : World) :
  (forall b,
     aspect_of (axes (snd (plot_homotopy ppath xpaths rzero czero false axs w)) b)
     = aspect_of (axes (opened axs w) b)) /\
  (axs = None ->
     aspect_of (axes (opened axs w) (fst (panels_for axs w))) = AspectAuto /\
     aspect_of (axes (opened axs w) (snd (panels_for axs w))) = AspectAuto) /\
  (forall w',
     plot_homotopy ppath xpaths rzero czero true axs w = (Ok tt, w') ->
     aspect_of (axes w' (fst (panels_for axs w))) = AspectEqual /\
     aspect_of (axes w' (snd (panels_for axs w))) = AspectEqual).
Proof.
  split; [| split].
  - intros b. rewrite plot_homotopy_unfold.
    pose proof (draw_all_kept aspect_of ppath xpaths rzero czero
                  (panels_for axs w) (opened axs w) (fun _ _ => eq_refl) b) as Hk.
    destruct (draw_all _ _ _ _ _ _) as [[[] | e] w1]; cbn [snd] in *.
    + now rewrite decorated_aspect_kept.
    + exact Hk.
  - intros ->. simpl. unfold upd. rewrite !Nat.eqb_refl.
    destruct (fresh w =? S (fresh w))%nat; now split.
  - intros w' Hrun.
    destruct (plot_homotopy_ok_inv _ _ _ _ _ _ _ _ Hrun) as (w1 & _ & ->).
    apply decorated_aspect_equal.
Qed.

(** C8 (as the code has it). Let the reference data fit, let the entries of
    [xpaths] before [bad] fit, and let either [ppath] lack [.real] with [bad]
    the first entry, or [ppath] have it and [bad] lack it. Then the call
    raises [AttributeError], and each axes holds what it held plus the
    reference curves and the solution curves of the entries before [bad]:
    no curve of [bad] or of a later entry is drawn. *)
Theorem plot_homotopy_attribute_error (ppath : pyobj)
    (pre : list pyobj) (bad : pyobj) (post : list pyobj)
    (rzero czero : option pyobj) (equal : bool)
    (axs : option (handle * handle)) (w : World) :
  ref_fits w rzero ppath -> ref_fits w czero ppath ->
  Forall (path_fits ppath) pre ->
  (has_parts ppath = false /\ pre = []) \/ (has_parts ppath = true /\ has_parts bad = false) ->
  fst (plot_homotopy ppath (pre ++ bad :: post) rzero czero equal axs w)
    = Err AttributeError /\
  forall b,
    artists (axes (snd (plot_homotopy ppath (pre ++ bad :: post) rzero czero equal axs w)) b)
    = artists (axes (opened axs w) b)
      ++ on b (homotopy_strokes ppath pre rzero czero (panels_for axs w)).
Proof.
  intros Hr Hc Hall Hcase. rewrite plot_homotopy_stops by assumption.
  split; [reflexivity |]. intros b. apply apply_strokes_artists.
Qed.

(** C1 (as the code has it). For float bounds [x0 < x1] and a count
    [N >= 1], [plot] builds a grid of exactly [N] points, applies [f]
    exactly once, to the whole grid, and, when [f] returns as many values as
    the grid has points and the backend accepts the style options, completes
    and adds to the surface the curve of the grid against [f]'s values with
    the caller's style options (followed by the reference line, if one is
    asked for).  When [N >= 2] the grid ends exactly at [x1], every point
    [i] before the last is [i * step + x0] as binary64 rounds it, with
    [step = (x1 - x0) / (N - 1)] (evenly spaced up to rounding), and the
    first point compares equal to [x0] whenever the step is finite (nothing
    overflows).  When [N = 1] the grid is the single point
    [0 * (x1 - x0) + x0], which compares equal to [x0] whenever [x1 - x0] is
    finite; [x1] is not sampled. *)
Theorem plot_samples_grid (f : callable) (x0 x1 : float) (N : Z) (ax : option handle)
    (zero : option float) (kw : kwargs) (w : World) :
  (x0 <? x1) = true -> (1 <= N)%Z ->
  exists g,
    linspace x0 x1 N = Ok g /\
    length g = Z.to_nat N /\
    (N = 1%Z ->
     g = [0 * (x1 - x0) + x0] /\
     (is_finite (x1 - x0) = true -> (nth 0 g 0 =? x0) = true)) /\
    ((2 <= N)%Z ->
     last g 0 = x1 /\
     (forall i, (i < length g - 1)%nat -> nth i g 0 = grid_point x0 x1 N i) /\
     (is_finite (grid_step x0 x1 N) = true -> (nth 0 g 0 =? x0) = true)) /\
    calls (snd (plot f x0 x1 N ax zero kw w)) = calls w ++ [NdArray (map Real g)] /\
    (forall y,
       f (NdArray (map Real g)) = Ok y ->
       len1d y = length g ->
       forallb (accepts (mpl w)) kw = true ->
       fst (plot f x0 x1 N ax zero kw w) = Ok tt /\
       exists after,
         artists (axes (snd (plot f x0 x1 N ax zero kw w)) (surface_for ax w))
         = artists (axes (readied ax w) (surface_for ax w))
           ++ Line2D (NdArray (map Real g)) y kw :: after).
Proof.
  intros Hx HN.
  destruct (linspace_length x0 x1 N ltac:(lia)) as (g & Hg & Hlen).
  exists g. split; [exact Hg |]. split; [exact Hlen |]. split; [| split; [| split]].
  - intros ->. rewrite linspace_single in Hg. injection Hg as <-.
    split; [reflexivity |]. intros Hfin. now apply single_point_first.
  - intros HN2. split; [now apply (linspace_last x0 x1 N) |]. split.
    + intros i Hi. apply (linspace_nth x0 x1 N g i HN2 Hg). lia.
    + intros Hfin. rewrite (linspace_nth x0 x1 N g 0%nat HN2 Hg) by lia.
      now apply grid_point_first.
  - rewrite plot_unfold, (plot_on_calls _ _ _ _ _ _ _ _ g Hg). now rewrite calls_readied.
  - intros y Hf Hy Hkw. split.
    + rewrite plot_unfold, (plot_on_ok _ _ _ _ _ _ _ _ g y); try assumption; [reflexivity |].
      now rewrite mpl_readied.
    + rewrite plot_unfold, (plot_on_ok _ _ _ _ _ _ _ _ g y); try assumption.
      * cbn [snd]. rewrite plotted_artists. eexists. reflexivity.
      * now rewrite mpl_readied.
Qed.

(** C4 (as the code has it). With [zero] omitted no call, completing or not,
    adds a horizontal line to any axes. With [zero] supplied, a call whose
    main curve is drawn (the grid exists, [f] returns as many values as it
    has points, the backend accepts the style options) completes and adds to
    the surface, after the curve, exactly one horizontal line: at [zero],
    between the x-limits the surface reports with the curve on it, dashed,
    black, of width 1 and with z-order -1. *)
Theorem plot_zero_line (f : callable) (x0 x1 : float) (N : Z) (ax : option handle)
    (kw : kwargs) (w : World) :
  (forall b,
     hlines_of (axes (snd (plot f x0 x1 N ax None kw w)) b)
     = hlines_of (axes (readied ax w) b)) /\
  (forall z g y,
     linspace x0 x1 N = Ok g ->
     f (NdArray (map Real g)) = Ok y ->
     len1d y = length g ->
     forallb (accepts (mpl w)) kw = true ->
     fst (plot f x0 x1 N ax (Some z) kw w) = Ok tt /\
     artists (axes (snd (plot f x0 x1 N ax (Some z) kw w)) (surface_for ax w))
     = artists (axes (readied ax w) (surface_for ax w))
       ++ [Line2D (NdArray (map Real g)) y kw;
           HLines z
             (fst (xlim_of (mpl w)
                     (add_artist (Line2D (NdArray (map Real g)) y kw)
                        (axes (readied ax w) (surface_for ax w)))))
             (snd (xlim_of (mpl w)
                     (add_artist (Line2D (NdArray (map Real g)) y kw)
                        (axes (readied ax w) (surface_for ax w)))))
             [("color", KStr "k"); ("linestyle", KStr "--");
              ("linewidth", KNum 1); ("zorder", KNum (-1))]]).
Proof.
  split.
  - intros b. rewrite plot_unfold.
    apply (plot_on_preserves (kept hlines_of)).
    + apply kept_refl.
    + apply kept_trans.
    + intros x w0 b0. reflexivity.
    + intros x y w0. apply kept_update. intros ax0. apply hlines_of_add_line.
    + intros Hzero. now contradiction Hzero.
  - intros z g y Hg Hf Hlen Hkw.
    rewrite plot_unfold, (plot_on_ok _ _ _ _ _ _ _ _ g y);
      try assumption; [| now rewrite mpl_readied].
    split; [reflexivity |]. cbn [snd]. rewrite plotted_artists.
    now rewrite mpl_readied.
Qed.

(** * The claims at concrete inputs *)

(** ** Inputs on which the theorems apply *)

(** C1 at [plot(lambda x: x**2, -1, 1, N=5)]. *)
Lemma plot_samples_grid_witness :
  (-1 <? 1) = true /\ (1 <= 5)%Z /\
  exists g,
    linspace (-1) 1 5 = Ok g /\ length g = 5%nat /\
    (nth 0 g 0 =? -1) = true /\ last g 0 = 1 /\
    calls (snd (plot square (-1) 1 5 None None [] world0)) = [NdArray (map Real g)] /\
    fst (plot square (-1) 1 5 None None [] world0) = Ok tt.
Proof.
  split; [reflexivity |]. split; [lia |].
  destruct (plot_samples_grid square (-1) 1 5 None None [] world0 eq_refl ltac:(lia))
    as (g & Hg & Hlen & _ & Hmany & Hcalls & Hdraw).
  destruct (Hmany ltac:(lia)) as (Hlast & _ & Hfirst).
  exists g.
  split; [exact Hg |]. split; [exact Hlen |]. split; [apply Hfirst; reflexivity |].
  split; [exact Hlast |]. split; [exact Hcalls |].
  apply (Hdraw (NdArray (map (fun n => Real (real n * real n)) (map Real g)))).
  - reflexivity.
  - simpl. now rewrite !length_map.
  - reflexivity.
Defined.

(** C2 at the scenario with numpy arrays and a reference curve on panel 1. *)
Lemma plot_homotopy_curves_witness :
  exists w',
    plot_homotopy (NdArray ppath_nums) [NdArray xpath_nums]
      (Some (PyList [Real 0; Real 0; Real 0])) None true None world0 = (Ok tt, w') /\
    length (artists (axes w' 0%nat)) = 2%nat /\
    length (artists (axes w' 1%nat)) = 1%nat.
Proof.
  destruct (plot_homotopy_curves (NdArray ppath_nums) [NdArray xpath_nums]
              (Some (PyList [Real 0; Real 0; Real 0])) None true None world0)
    as (w' & Hrun & H0 & H1 & _).
  - simpl. discriminate.
  - reflexivity.
  - repeat constructor.
  - split; reflexivity.
  - exact I.
  - exists w'. split; [exact Hrun |].
    simpl in H0, H1. rewrite H0, H1. split; reflexivity.
Defined.

(** C4 at [plot(lambda x: x**2, -1, 1, N=5, zero=0)]. *)
Lemma plot_zero_line_witness :
  fst (plot square (-1) 1 5 None (Some 0) [] world0) = Ok tt /\
  map curve_points (hlines_of (axes (snd (plot square (-1) 1 5 None (Some 0) [] world0)) 0%nat))
  = [[(-1.1, 0); (1.1, 0)]].
Proof.
  destruct (linspace_length (-1) 1 5 ltac:(lia)) as (g & Hg & Hlen).
  destruct (proj2 (plot_zero_line square (-1) 1 5 None [] world0) 0 g
              (NdArray (map (fun n => Real (real n * real n)) (map Real g))) Hg)
    as [Hok _].
  - reflexivity.
  - simpl. now rewrite !length_map.
  - reflexivity.
  - split; [exact Hok | reflexivity].
Defined.

(** C6 at the scenario with numpy arrays. *)
Lemma plot_homotopy_aspect_witness :
  aspect_of (axes (snd scenario_arrays) 0%nat) = AspectEqual /\
  aspect_of (axes (snd scenario_arrays) 1%nat) = AspectEqual.
Proof.
  exact (proj2 (proj2 (plot_homotopy_aspect (NdArray ppath_nums) [NdArray xpath_nums]
                         None None None world0))
           (snd scenario_arrays) eq_refl).
Defined.

(** C7 at the scenario with numpy arrays. *)
Lemma plot_homotopy_labels_witness :
  xlabel (axes (snd scenario_arrays) 0%nat) = "Solution (Real)" /\
  xlabel (axes (snd scenario_arrays) 1%nat) = "Solution (Imaginary)" /\
  ylabel (axes (snd scenario_arrays) 0%nat) = "Parameter" /\
  ylabel (axes (snd scenario_arrays) 1%nat) = "".
Proof.
  apply (plot_homotopy_labels (NdArray ppath_nums) [NdArray xpath_nums]
           None None true None world0 (snd scenario_arrays)).
  - reflexivity.
  - simpl. discriminate.
Defined.

(** C8 at two paths, the first an array and the second a plain list. *)
Lemma plot_homotopy_attribute_error_witness :
  fst (plot_homotopy (NdArray ppath_nums) ([NdArray xpath_nums] ++ PyList xpath_nums :: [])
         None None true None world0) = Err AttributeError /\
  length (artists (axes (snd (plot_homotopy (NdArray ppath_nums)
                                ([NdArray xpath_nums] ++ PyList xpath_nums :: [])
                                None None true None world0)) 0%nat)) = 1%nat.
Proof.
  destruct (plot_homotopy_attribute_error (NdArray ppath_nums) [NdArray xpath_nums]
              (PyList xpath_nums) [] None None true None world0) as [Herr Hart].
  - exact I.
  - exact I.
  - repeat constructor.
  - right. split; reflexivity.
  - split; [exact Herr |]. rewrite Hart. reflexivity.
Defined.

(** C9 at a complex and a real parameter path with the same real part. *)
Lemma plot_homotopy_real_part_only_witness :
  getattr_real (NdArray [Complex 0 5; Complex 1 7; Complex 2 9])
    = getattr_real (NdArray ppath_nums) /\
  plot_homotopy (NdArray [Complex 0 5; Complex 1 7; Complex 2 9]) [NdArray xpath_nums]
    None None true None world0
  = scenario_arrays.
Proof.
  split; [reflexivity |].
  apply (plot_homotopy_real_part_only
           (NdArray [Complex 0 5; Complex 1 7; Complex 2 9]) (NdArray ppath_nums)).
  reflexivity.
Defined.

(** ** Inputs on which the claims as worded fail *)

(** C1 fails in three ways.  At [N = 1] the grid of [plot(f, 0, 1, N=1)] is
    the single point 0, and the endpoint 1 is not in it.  At
    [plot(f, 0, 1, N=4)] the grid is not evenly spaced: its first and its
    last step differ.  At [plot(f, -1.7e308, 1.7e308, N=3)] the difference of
    the bounds overflows and the grid starts with NaN, not with [x0]. *)
Lemma plot_grid_not_as_claimed :
  (calls (snd (plot square 0 1 1 None None [] world0)) = [NdArray (map Real [0])] /\
   (0 =? 1) = false) /\
  (exists a b c d,
     calls (snd (plot square 0 1 4 None None [] world0)) = [NdArray (map Real [a; b; c; d])] /\
     (b - a =? d - c) = false) /\
  (exists a b c,
     calls (snd (plot square (-1.7e308) 1.7e308 3 None None [] world0))
       = [NdArray (map Real [a; b; c])] /\
     (a =? -1.7e308) = false).
Proof.
  split; [split; reflexivity |]. split.
  - exists 0, 0.33333333333333331, 0.66666666666666663, 1. split; reflexivity.
  - exists nan, infinity, 1.7e308. split; reflexivity.
Qed.

(** C2 at two paths given as plain lists: the call raises at the first of
    them, and neither panel holds a curve although [xpaths] has two
    entries. *)
Lemma plot_homotopy_lists_draw_nothing :
  fst scenario_two_lists = Err AttributeError /\
  artists (axes (snd scenario_two_lists) 0%nat) = [] /\
  artists (axes (snd scenario_two_lists) 1%nat) = [].
Proof. repeat split. Qed.

(** C3: the call of the scenario, with plain lists as written, raises
    [AttributeError] and leaves both panels empty. *)
Lemma plot_homotopy_scenario_lists_raises :
  fst scenario_lists = Err AttributeError /\
  map curve_points (artists (axes (snd scenario_lists) 0%nat)) = [] /\
  map curve_points (artists (axes (snd scenario_lists) 1%nat)) = [].
Proof. repeat split. Qed.

(** C4 at a function that is not vectorized: [zero] is supplied, yet the call
    raises when the curve is plotted and no horizontal line is drawn. *)
Lemma plot_constant_draws_no_zero_line :
  fst scenario_constant = Err ValueError /\
  hlines_of (axes (snd scenario_constant) 0%nat) = [].
Proof. repeat split. Qed.

(** C6: in the scenario with plain lists [equal] is true, yet the call raises
    in the loop and both panels keep the aspect ['auto']. *)
Lemma plot_homotopy_lists_keep_auto_aspect :
  fst scenario_lists = Err AttributeError /\
  aspect_of (axes (snd scenario_lists) 0%nat) = AspectAuto /\
  aspect_of (axes (snd scenario_lists) 1%nat) = AspectAuto.
Proof. repeat split. Qed.

(** C7 with one axes passed for both panels: the call completes, yet the
    x-label of panel 1 reads "Solution (Imaginary)", the label set last, and
    the y-label of panel 2, empty before, is "Parameter". *)
Lemma plot_homotopy_shared_axes_labels :
  fst scenario_shared_axes = Ok tt /\
  xlabel (axes (snd scenario_shared_axes) 0%nat) = "Solution (Imaginary)" /\
  ylabel (axes world1 0%nat) = "" /\
  ylabel (axes (snd scenario_shared_axes) 0%nat) = "Parameter".
Proof. repeat split. Qed.

(** C8 at an empty [xpaths]: [ppath] is a plain list, without [.real], yet
    the call completes. *)
Lemma plot_homotopy_no_paths_completes :
  has_parts (PyList ppath_nums) = false /\
  fst scenario_no_paths = Ok tt.
Proof. repeat split. Qed.

(** * Further properties of the two functions *)

(** ** Every way a run of [plot] can go *)

Lemma plot_on_cases (f : callable) (x0 x1 : float) (N : Z) (zero : option float)
    (kw : kwargs) (a : handle) (w : World) :
  plot_on f x0 x1 N zero kw a w
  = match linspace x0 x1 N with
    | Err e => (Err e, w)
    | Ok g =>
        match f (NdArray (map Real g)) with
        | Err e => (Err e, log_call (NdArray (map Real g)) w)
        | Ok y =>
            if negb (length g =? len1d y)%nat
            then (Err ValueError, log_call (NdArray (map Real g)) w)
            else if negb (forallb (accepts (mpl w)) kw)
            then (Err (refusal (mpl w) kw), log_call (NdArray (map Real g)) w)
            else (Ok tt, plotted a (NdArray (map Real g)) y kw zero w)
        end
    end.
Proof.
  unfold plot_on, np_linspace, bind, call, ret, raise.
  destruct (linspace x0 x1 N) as [g | e]; [| reflexivity].
  destruct (f (NdArray (map Real g))) as [y | e]; [| reflexivity].
  unfold ax_plot. simpl len1d. rewrite length_map. cbn [mpl log_call].
  destruct (negb (length g =? len1d y)%nat); [reflexivity |].
  destruct (negb (forallb (accepts (mpl w)) kw)); [reflexivity |].
  destruct zero; reflexivity.
Qed.

Lemma linspace_negative (x0 x1 : float) (N : Z) :
  (N < 0)%Z -> linspace x0 x1 N = Err ValueError.
Proof. intros HN. unfold linspace. apply Z.ltb_lt in HN. now rewrite HN. Qed.

Lemma plot_on_kept {T} (proj : Axes -> T) (f : callable) (x0 x1 : float) (N : Z)
    (zero : option float) (kw : kwargs) (a : handle) (w : World) :
  (forall x ax, proj (add_artist x ax) = proj ax) ->
  kept proj w (snd (plot_on f x0 x1 N zero kw a w)).
Proof.
  intros Hadd. apply plot_on_preserves.
  - apply kept_refl.
  - apply kept_trans.
  - intros x w0 b. reflexivity.
  - intros x y w0. apply kept_update. intros ax. apply Hadd.
  - intros _ y lo hi w0. apply kept_update. intros ax. apply Hadd.
Qed.

(** ** Growth *)

Lemma grows_refl (w : World) : grows w w.
Proof. intros b. exists []. now rewrite app_nil_r. Qed.

Lemma grows_trans (w1 w2 w3 : World) : grows w1 w2 -> grows w2 w3 -> grows w1 w3.
Proof.
  intros H12 H23 b. destruct (H12 b) as [l1 E1]. destruct (H23 b) as [l2 E2].
  exists (l1 ++ l2). now rewrite E2, E1, app_assoc.
Qed.

Lemma grows_add (a : handle) (x : artist) (w : World) :
  grows w (update_axes a (add_artist x) w).
Proof.
  intros b. simpl. unfold upd. destruct (Nat.eqb_spec b a) as [-> | _].
  - now exists [x].
  - exists []. now rewrite app_nil_r.
Qed.

Lemma grows_kept (w w' : World) : kept artists w w' -> grows w w'.
Proof. intros H b. exists []. now rewrite app_nil_r, H. Qed.

(** ** Runs of [plot_homotopy] read backwards *)

Lemma ax_plot_cases (a : handle) (x y : pyobj) (kw : kwargs) (w : World) :
  ax_plot a x y kw w
  = if negb (len1d x =? len1d y)%nat then (Err ValueError, w)
    else if negb (forallb (accepts (mpl w)) kw) then (Err (refusal (mpl w) kw), w)
    else (Ok tt, update_axes a (add_artist (Line2D x y kw)) w).
Proof. reflexivity. Qed.

Lemma ax_plot_mismatch (a : handle) (x y : pyobj) (kw : kwargs) (w : World) :
  len1d x <> len1d y -> ax_plot a x y kw w = (Err ValueError, w).
Proof.
  intros Hlen. unfold ax_plot. apply Nat.eqb_neq in Hlen. now rewrite Hlen.
Qed.

Lemma ax_plot_ok_inv (a : handle) (x y : pyobj) (kw : kwargs) (w : World) :
  fst (ax_plot a x y kw w) = Ok tt ->
  len1d x = len1d y /\ forallb (accepts (mpl w)) kw = true.
Proof.
  unfold ax_plot. destruct (Nat.eqb_spec (len1d x) (len1d y)) as [Hlen | _]; simpl.
  - destruct (forallb (accepts (mpl w)) kw); simpl; intros H; [now split | discriminate H].
  - intros H. discriminate H.
Qed.

Lemma ref_plot_run (a : handle) (zero : option pyobj) (ppath : pyobj) (w : World) :
  (ref_fits w zero ppath /\
   match zero with
   | Some r => ax_plot a r ppath dashed_style
   | None => ret tt
   end w = (Ok tt, apply_strokes (ref_strokes a zero ppath) w))
  \/
  (~ ref_fits w zero ppath /\
   exists e,
     match zero with
     | Some r => ax_plot a r ppath dashed_style
     | None => ret tt
     end w = (Err e, w)).
Proof.
  destruct zero as [r |]; [| left; repeat split].
  rewrite ax_plot_cases. unfold ref_fits.
  destruct (Nat.eqb_spec (len1d r) (len1d ppath)) as [Hlen | Hlen]; cbn [negb].
  - destruct (forallb (accepts (mpl w)) dashed_style) eqn:Hkw; cbn [negb].
    + left. now repeat split.
    + right. split; [intros [_ H]; discriminate H | now eexists].
  - right. split; [intros [H _]; contradiction | now eexists].
Qed.

Lemma has_parts_cases (o : pyobj) :
  (has_parts o = true /\ getattr_real o = Ok (re_data o) /\ getattr_imag o = Ok (im_data o))
  \/ (has_parts o = false /\ getattr_real o = Err AttributeError).
Proof. destruct o; simpl; [left | right | left]; repeat split. Qed.

Lemma draw_path_mismatch (ppath : pyobj) (axs : handle * handle) (xp : pyobj) (w : World) :
  has_parts ppath = true -> has_parts xp = true -> len1d xp <> len1d ppath ->
  draw_path ppath axs xp w = (Err ValueError, w).
Proof.
  intros Hp Hx Hlen. unfold draw_path, bind, lift.
  rewrite (has_parts_real _ Hx), (has_parts_real _ Hp).
  rewrite ax_plot_mismatch; [reflexivity |].
  now rewrite !len1d_re_data.
Qed.

Lemma draw_path_ok_inv (ppath : pyobj) (axs : handle * handle) (xp : pyobj) (w : World) :
  fst (draw_path ppath axs xp w) = Ok tt ->
  has_parts ppath = true /\ path_fits ppath xp.
Proof.
  intros Hrun.
  destruct (has_parts_cases xp) as [(Hx & _ & _) | (Hx & _)].
  - destruct (has_parts_cases ppath) as [(Hp & _ & _) | (Hp & _)].
    + destruct (Nat.eq_dec (len1d xp) (len1d ppath)) as [Hlen | Hlen].
      * now repeat split.
      * rewrite (draw_path_mismatch ppath axs xp w Hp Hx Hlen) in Hrun. discriminate Hrun.
    + rewrite (draw_path_no_ppath_real ppath axs xp w Hp) in Hrun. discriminate Hrun.
  - rewrite (draw_path_no_real ppath axs xp w Hx) in Hrun. discriminate Hrun.
Qed.

Lemma loop_ok_inv (ppath : pyobj) (axs : handle * handle) (xpaths : list pyobj) (w : World) :
  fst (for_each xpaths (draw_path ppath axs) w) = Ok tt ->
  xpaths = [] \/ (has_parts ppath = true /\ Forall (path_fits ppath) xpaths).
Proof.
  revert w. induction xpaths as [| xp rest IH]; intros w Hrun; [now left |].
  right. simpl in Hrun. unfold bind in Hrun.
  destruct (draw_path ppath axs xp w) as [[[] | e] w1] eqn:Hxp; [| discriminate Hrun].
  assert (Hfst : fst (draw_path ppath axs xp w) = Ok tt) by now rewrite Hxp.
  destruct (draw_path_ok_inv ppath axs xp w Hfst) as [Hp Hfit].
  split; [exact Hp |]. constructor; [exact Hfit |].
  destruct (IH w1 Hrun) as [-> | [_ Hrest]]; [constructor | exact Hrest].
Qed.


Lemma mpl_opened (axs : option (handle * handle)) (w : World) : mpl (opened axs w) = mpl w.
Proof. now destruct axs. Qed.

Lemma ref_fits_mpl (w w' : World) (zero : option pyobj) (ppath : pyobj) :
  mpl w' = mpl w -> ref_fits w zero ppath <-> ref_fits w' zero ppath.
Proof. intros Hm. unfold ref_fits. now rewrite Hm. Qed.

Lemma apply_strokes_mpl (l : list stroke) (w : World) : mpl (apply_strokes l w) = mpl w.
Proof.
  revert w. induction l as [| s rest IH]; intros w; [reflexivity |].
  simpl. now rewrite IH.
Qed.

(** The drawing part cut after the two reference curves. *)
Lemma draw_all_run (ppath : pyobj) (xpaths : list pyobj) (rzero czero : option pyobj)
    (axs : handle * handle) (w : World) :
  (ref_fits w rzero ppath /\ ref_fits w czero ppath /\
   draw_all ppath xpaths rzero czero axs w
   = for_each xpaths (draw_path ppath axs)
       (apply_strokes (ref_strokes (fst axs) rzero ppath
                       ++ ref_strokes (snd axs) czero ppath) w))
  \/
  (~ (ref_fits w rzero ppath /\ ref_fits w czero ppath) /\
   fst (draw_all ppath xpaths rzero czero axs w) <> Ok tt).
Proof.
  unfold draw_all, bind.
  destruct (ref_plot_run (fst axs) rzero ppath w) as [[Hr Er] | [Hr [e Er]]]; rewrite Er.
  - set (w1 := apply_strokes (ref_strokes (fst axs) rzero ppath) w).
    assert (Hm : mpl w1 = mpl w) by apply apply_strokes_mpl.
    destruct (ref_plot_run (snd axs) czero ppath w1) as [[Hc Ec] | [Hc [e Ec]]]; rewrite Ec.
    + left. split; [exact Hr |]. split; [now apply (ref_fits_mpl w w1) |].
      now rewrite apply_strokes_app.
    + right. split; [| discriminate].
      intros [_ Hc']. apply Hc. now apply (ref_fits_mpl w w1).
  - right. split; [| discriminate]. intros [Hr' _]. contradiction.
Qed.

Lemma on_paths_same (ppath : pyobj) (a : handle) (xpaths : list pyobj) :
  on a (flat_map (path_strokes ppath (a, a)) xpaths)
  = flat_map (fun xp => [real_curve ppath xp; imag_curve ppath xp]) xpaths.
Proof.
  unfold on. induction xpaths as [| xp rest IH]; [reflexivity |].
  simpl. rewrite Nat.eqb_refl. simpl. now rewrite IH.
Qed.

Lemma plotted_calls (a : handle) (x y : pyobj) (kw : kwargs) (zero : option float) (w : World) :
  calls (plotted a x y kw zero w) = calls w ++ [x].
Proof. unfold plotted. now destruct zero. Qed.

Lemma plotted_mpl (a : handle) (x y : pyobj) (kw : kwargs) (zero : option float) (w : World) :
  mpl (plotted a x y kw zero w) = mpl w.
Proof. unfold plotted. now destruct zero. Qed.

(** ** The frame of [plot_homotopy] *)

Lemma framed2_refl (p : handle * handle) (w : World) : framed2 p w w.
Proof. repeat split. Qed.

Lemma framed2_trans (p : handle * handle) (w1 w2 w3 : World) :
  framed2 p w1 w2 -> framed2 p w2 w3 -> framed2 p w1 w3.
Proof.
  intros (F12 & N12 & C12 & A12) (F23 & N23 & C23 & A23). repeat split; try congruence.
  intros b H0 H1. now rewrite A23, A12.
Qed.

Lemma framed2_update (p : handle * handle) (a : handle) (g : Axes -> Axes) (w : World) :
  a = fst p \/ a = snd p -> framed2 p w (update_axes a g w).
Proof.
  intros Ha. repeat split. intros b H0 H1. simpl. apply upd_other.
  destruct Ha; congruence.
Qed.

Lemma draw_all_framed2 (ppath : pyobj) (xpaths : list pyobj) (rzero czero : option pyobj)
    (axs : handle * handle) :
  preserves (framed2 axs) (draw_all ppath xpaths rzero czero axs).
Proof.
  pose proof (framed2_refl axs) as Hrefl. pose proof (framed2_trans axs) as Htrans.
  assert (H0 : forall x y kw, preserves (framed2 axs) (ax_plot (fst axs) x y kw))
    by (intros; apply preserves_ax_plot; [exact Hrefl |];
        intros w; apply framed2_update; now left).
  assert (H1 : forall x y kw, preserves (framed2 axs) (ax_plot (snd axs) x y kw))
    by (intros; apply preserves_ax_plot; [exact Hrefl |];
        intros w; apply framed2_update; now right).
  unfold draw_all.
  apply preserves_bind; [exact Htrans | | intros _].
  { destruct rzero; [apply H0 | now apply preserves_ret]. }
  apply preserves_bind; [exact Htrans | | intros _].
  { destruct czero; [apply H1 | now apply preserves_ret]. }
  apply preserves_for_each; [exact Hrefl | exact Htrans |].
  intros xp. unfold draw_path.
  apply preserves_bind; [exact Htrans | now apply preserves_lift | intros xr].
  apply preserves_bind; [exact Htrans | now apply preserves_lift | intros pr].
  apply preserves_bind; [exact Htrans | apply H0 | intros _].
  apply preserves_bind; [exact Htrans | now apply preserves_lift | intros xi].
  apply preserves_bind; [exact Htrans | now apply preserves_lift | intros pr'].
  apply H1.
Qed.

Lemma decorated_framed2 (equal : bool) (p : handle * handle) (w : World) :
  framed2 p w (decorated equal p w).
Proof.
  split; [now destruct equal |]. split; [now destruct equal |].
  split; [now destruct equal |].
  intros b H0 H1. destruct equal; by_handles.
Qed.

Lemma plot_homotopy_framed2 (ppath : pyobj) (xpaths : list pyobj)
    (rzero czero : option pyobj) (equal : bool)
    (axs : option (handle * handle)) (w : World) :
  framed2 (panels_for axs w) (opened axs w)
    (snd (plot_homotopy ppath xpaths rzero czero equal axs w)).
Proof.
  rewrite plot_homotopy_unfold.
  pose proof (draw_all_framed2 ppath xpaths rzero czero (panels_for axs w) (opened axs w)) as H.
  destruct (draw_all _ _ _ _ _ _) as [[[] | e] w1]; cbn [snd] in *.
  - eapply framed2_trans; [exact H | apply decorated_framed2].
  - exact H.
Qed.


(** ** [plot]: when it completes, how it fails, what it leaves *)

(** X1. A call of [plot] completes exactly when the grid can be built
    ([N >= 0]), [f] returns on the grid a value with as many entries as the
    grid has points, and the backend accepts every style option. *)
Theorem plot_completes_iff (f : callable) (x0 x1 : float) (N : Z) (ax : option handle)
    (zero : option float) (kw : kwargs) (w : World) :
  fst (plot f x0 x1 N ax zero kw w) = Ok tt <->
  (0 <= N)%Z /\
  exists g y,
    linspace x0 x1 N = Ok g /\
    f (NdArray (map Real g)) = Ok y /\
    len1d y = length g /\
    forallb (accepts (mpl w)) kw = true.
Proof.
  rewrite plot_unfold, plot_on_cases, mpl_readied.
  destruct (Z.ltb_spec N 0) as [Hneg | Hpos].
  - rewrite (linspace_negative x0 x1 N Hneg). cbn [fst].
    split; [discriminate | intros [H _]; lia].
  - destruct (linspace_length x0 x1 N Hpos) as (g & Hg & _). rewrite Hg.
    destruct (f (NdArray (map Real g))) as [y | e] eqn:Hf.
    + destruct (Nat.eqb_spec (length g) (len1d y)) as [Hlen | Hlen]; cbn [negb].
      * destruct (forallb (accepts (mpl w)) kw) eqn:Hkw; cbn [negb fst].
        -- split; [intros _ | reflexivity]. split; [exact Hpos |].
           exists g, y. now repeat split.
        -- split; [discriminate |].
           intros (_ & g' & y' & _ & _ & _ & Hk). discriminate Hk.
      * cbn [fst]. split; [discriminate |].
        intros (_ & g' & y' & Hg' & Hf' & Hlen' & _).
        injection Hg' as <-. rewrite Hf in Hf'. injection Hf' as <-. congruence.
    + cbn [fst]. split; [discriminate |].
      intros (_ & g' & y' & Hg' & Hf' & _).
      injection Hg' as <-. rewrite Hf in Hf'. discriminate Hf'.
Qed.

(** X2. A call of [plot] that raises has drawn nothing: every axes is as it
    was once the surface was there, so the curve and the reference line come
    together or not at all. *)
Theorem plot_failure_draws_nothing (f : callable) (x0 x1 : float) (N : Z)
    (ax : option handle) (zero : option float) (kw : kwargs) (w : World) (e : exn) :
  fst (plot f x0 x1 N ax zero kw w) = Err e ->
  forall b, axes (snd (plot f x0 x1 N ax zero kw w)) b = axes (readied ax w) b.
Proof.
  rewrite plot_unfold, plot_on_cases.
  destruct (linspace x0 x1 N) as [g | e0]; [| reflexivity].
  destruct (f (NdArray (map Real g))) as [y | e0]; [| reflexivity].
  destruct (negb (length g =? len1d y)%nat); [reflexivity |].
  destruct (negb (forallb (accepts (mpl (readied ax w))) kw)); [reflexivity |].
  intros H. discriminate H.
Qed.


(** X4. [plot] only ever appends: on every axes, whether or not the call
    raises, what was drawn stays, in place and in order, and the aspect and
    both labels are untouched. *)
Theorem plot_only_appends (f : callable) (x0 x1 : float) (N : Z) (ax : option handle)
    (zero : option float) (kw : kwargs) (w : World) (b : handle) :
  (exists l,
     artists (axes (snd (plot f x0 x1 N ax zero kw w)) b)
     = artists (axes (readied ax w) b) ++ l) /\
  aspect_of (axes (snd (plot f x0 x1 N ax zero kw w)) b)
    = aspect_of (axes (readied ax w) b) /\
  xlabel (axes (snd (plot f x0 x1 N ax zero kw w)) b) = xlabel (axes (readied ax w) b) /\
  ylabel (axes (snd (plot f x0 x1 N ax zero kw w)) b) = ylabel (axes (readied ax w) b).
Proof.
  rewrite plot_unfold. repeat split.
  - apply (plot_on_preserves grows).
    + apply grows_refl.
    + apply grows_trans.
    + intros x w0. apply grows_kept. intros b0. reflexivity.
    + intros x y w0. apply grows_add.
    + intros _ y lo hi w0. apply grows_add.
  - now apply plot_on_kept.
  - now apply plot_on_kept.
  - now apply plot_on_kept.
Qed.

(** X6. Two calls of [plot] on the same surface compose: when each draws its
    curve, the surface holds what it held, then the first curve, then the
    second, then the reference line of the second call, whose limits are
    those the surface reports with both curves on it; [f1] and [f2] are each
    applied once, in that order. *)
Theorem plot_twice (f1 f2 : callable) (x0 x1 x0' x1' : float) (N N' : Z) (a : handle)
    (zero : option float) (kw kw' : kwargs) (w : World)
    (g g' : list float) (y y' : pyobj) :
  linspace x0 x1 N = Ok g -> f1 (NdArray (map Real g)) = Ok y ->
  len1d y = length g -> forallb (accepts (mpl w)) kw = true ->
  linspace x0' x1' N' = Ok g' -> f2 (NdArray (map Real g')) = Ok y' ->
  len1d y' = length g' -> forallb (accepts (mpl w)) kw' = true ->
  exists w',
    (plot f1 x0 x1 N (Some a) None kw ;; plot f2 x0' x1' N' (Some a) zero kw') w
      = (Ok tt, w') /\
    calls w' = calls w ++ [NdArray (map Real g); NdArray (map Real g')] /\
    artists (axes w' a)
    = artists (axes w a)
      ++ Line2D (NdArray (map Real g)) y kw
         :: Line2D (NdArray (map Real g')) y' kw'
         :: match zero with
            | Some z =>
                [HLines z
                   (fst (xlim_of (mpl w)
                           (add_artist (Line2D (NdArray (map Real g')) y' kw')
                              (add_artist (Line2D (NdArray (map Real g)) y kw) (axes w a)))))
                   (snd (xlim_of (mpl w)
                           (add_artist (Line2D (NdArray (map Real g')) y' kw')
                              (add_artist (Line2D (NdArray (map Real g)) y kw) (axes w a)))))
                   zero_style]
            | None => []
            end.
Proof.
  intros Hg Hf Hlen Hkw Hg' Hf' Hlen' Hkw'.
  eexists. split.
  - unfold bind at 1. rewrite plot_unfold. cbn [surface_for readied].
    rewrite (plot_on_ok f1 x0 x1 N None kw a w g y Hg Hf Hlen Hkw).
    rewrite plot_unfold. cbn [surface_for readied].
    apply (plot_on_ok f2 x0' x1' N' zero kw' a _ g' y' Hg' Hf' Hlen').
    now rewrite plotted_mpl.
  - split.
    + rewrite !plotted_calls. now rewrite <- app_assoc.
    + rewrite plotted_artists, plotted_mpl.
      assert (Hfirst : axes (plotted a (NdArray (map Real g)) y kw None w) a
                       = add_artist (Line2D (NdArray (map Real g)) y kw) (axes w a))
        by (simpl; apply upd_same).
      rewrite Hfirst. simpl. now rewrite <- app_assoc.
Qed.

(** ** [plot_homotopy]: its surfaces, when it completes, how it fails *)

(** X7. With panels supplied, [plot_homotopy] creates no figure and no axes
    and changes nothing outside the two panels; with none, it creates exactly
    one figure of size (10, 4) holding exactly two axes and changes nothing
    outside them.  It never applies a function of the caller.  All of this
    holds whether or not the call raises. *)
Theorem plot_homotopy_surfaces (ppath : pyobj) (xpaths : list pyobj)
    (rzero czero : option pyobj) (equal : bool)
    (axs : option (handle * handle)) (w : World) :
  calls (snd (plot_homotopy ppath xpaths rzero czero equal axs w)) = calls w /\
  match axs with
  | Some p =>
      figures (snd (plot_homotopy ppath xpaths rzero czero equal (Some p) w)) = figures w /\
      fresh (snd (plot_homotopy ppath xpaths rzero czero equal (Some p) w)) = fresh w /\
      forall b, b <> fst p -> b <> snd p ->
        axes (snd (plot_homotopy ppath xpaths rzero czero equal (Some p) w)) b = axes w b
  | None =>
      figures (snd (plot_homotopy ppath xpaths rzero czero equal None w))
        = figures w ++ [mkFigure (Some (10, 4)) [fresh w; S (fresh w)]] /\
      fresh (snd (plot_homotopy ppath xpaths rzero czero equal None w)) = S (S (fresh w)) /\
      forall b, b <> fresh w -> b <> S (fresh w) ->
        axes (snd (plot_homotopy ppath xpaths rzero czero equal None w)) b = axes w b
  end.
Proof.
  destruct (plot_homotopy_framed2 ppath xpaths rzero czero equal axs w)
    as (Hf & Hn & Hc & Ha).
  split; [rewrite Hc; now destruct axs |].
  destruct axs as [p |]; cbn [opened panels_for fst snd] in *.
  - now repeat split.
  - rewrite Hf, Hn. repeat split.
    intros b H0 H1. rewrite (Ha b H0 H1). simpl.
    rewrite upd_other by exact H1. now apply upd_other.
Qed.

(** X8. A call of [plot_homotopy] completes exactly when the reference data
    supplied fits (same length as [ppath], dashed style accepted) and either
    [xpaths] is empty, or [ppath] has a real part and every entry of
    [xpaths] has real and imaginary parts and the length of [ppath].  In
    particular [ppath] may be anything when there is no path to draw. *)
Theorem plot_homotopy_completes_iff (ppath : pyobj) (xpaths : list pyobj)
    (rzero czero : option pyobj) (equal : bool)
    (axs : option (handle * handle)) (w : World) :
  fst (plot_homotopy ppath xpaths rzero czero equal axs w) = Ok tt <->
  ref_fits w rzero ppath /\ ref_fits w czero ppath /\
  (xpaths = [] \/ (has_parts ppath = true /\ Forall (path_fits ppath) xpaths)).
Proof.
  rewrite plot_homotopy_unfold.
  assert (Hm : mpl (opened axs w) = mpl w) by apply mpl_opened.
  destruct (draw_all_run ppath xpaths rzero czero (panels_for axs w) (opened axs w))
    as [(Hr & Hc & E) | (Hn & Hfail)].
  - rewrite E. apply (ref_fits_mpl w (opened axs w)) in Hr; [| exact Hm].
    apply (ref_fits_mpl w (opened axs w)) in Hc; [| exact Hm].
    split.
    + intros Hrun. split; [exact Hr |]. split; [exact Hc |].
      destruct (for_each xpaths _ _) as [[[] | e] w1] eqn:Eloop; [| discriminate Hrun].
      eapply loop_ok_inv. rewrite Eloop. reflexivity.
    + intros (_ & _ & [-> | [Hp Hall]]); [reflexivity |].
      now rewrite loop_ok.
  - split.
    + intros Hrun. exfalso. apply Hfail.
      destruct (draw_all _ _ _ _ _ _) as [[[] | e] w1]; [reflexivity | discriminate Hrun].
    + intros (Hr & Hc & _). exfalso. apply Hn.
      split; now apply (ref_fits_mpl w (opened axs w)).
Qed.


(** X10. Reference data that is not as long as [ppath] is a [ValueError]
    before the loop: for [rzero] nothing at all has been drawn or changed on
    any axes; for [czero] only the reference curve of panel 1, if there is
    one, has been drawn. *)
Theorem plot_homotopy_reference_mismatch (ppath : pyobj) (xpaths : list pyobj)
    (rzero czero : option pyobj) (equal : bool)
    (axs : option (handle * handle)) (w : World) :
  (forall r, len1d r <> len1d ppath ->
     fst (plot_homotopy ppath xpaths (Some r) czero equal axs w) = Err ValueError /\
     forall b,
       axes (snd (plot_homotopy ppath xpaths (Some r) czero equal axs w)) b
       = axes (opened axs w) b) /\
  (forall c, ref_fits w rzero ppath -> len1d c <> len1d ppath ->
     fst (plot_homotopy ppath xpaths rzero (Some c) equal axs w) = Err ValueError /\
     forall b,
       artists (axes (snd (plot_homotopy ppath xpaths rzero (Some c) equal axs w)) b)
       = artists (axes (opened axs w) b)
         ++ on b (ref_strokes (fst (panels_for axs w)) rzero ppath)).
Proof.
  split.
  - intros r Hlen. rewrite plot_homotopy_unfold. unfold draw_all, bind.
    rewrite ax_plot_mismatch by exact Hlen. now split.
  - intros c Hr Hlen. rewrite plot_homotopy_unfold. unfold draw_all, bind.
    destruct (ref_plot_run (fst (panels_for axs w)) rzero ppath (opened axs w))
      as [[_ E] | [Hn _]].
    + rewrite E. rewrite ax_plot_mismatch by exact Hlen.
      split; [reflexivity |]. intros b. apply apply_strokes_artists.
    + exfalso. apply Hn. now apply ref_fits_opened.
Qed.

(** X11. [plot_homotopy] only ever appends: on every axes, whether or not
    the call raises, what was drawn stays, in place and in order. *)
Theorem plot_homotopy_only_appends (ppath : pyobj) (xpaths : list pyobj)
    (rzero czero : option pyobj) (equal : bool)
    (axs : option (handle * handle)) (w : World) (b : handle) :
  exists l,
    artists (axes (snd (plot_homotopy ppath xpaths rzero czero equal axs w)) b)
    = artists (axes (opened axs w) b) ++ l.
Proof.
  rewrite plot_homotopy_unfold.
  assert (H : grows (opened axs w)
                (snd (draw_all ppath xpaths rzero czero (panels_for axs w) (opened axs w)))).
  { apply draw_all_preserves.
    - apply grows_refl.
    - apply grows_trans.
    - intros a x y kw w0. apply grows_add. }
  destruct (draw_all _ _ _ _ _ _) as [[[] | e] w1]; cbn [snd] in *.
  - rewrite decorated_artists. apply H.
  - apply H.
Qed.

(** X12. A call of [plot_homotopy] that raises has decorated nothing: the
    aspect and both labels of every axes are as they were once the panels
    were there, whatever was drawn before the exception. *)
Theorem plot_homotopy_failure_keeps_decoration (ppath : pyobj) (xpaths : list pyobj)
    (rzero czero : option pyobj) (equal : bool)
    (axs : option (handle * handle)) (w : World) (e : exn) :
  fst (plot_homotopy ppath xpaths rzero czero equal axs w) = Err e ->
  forall b,
    aspect_of (axes (snd (plot_homotopy ppath xpaths rzero czero equal axs w)) b)
      = aspect_of (axes (opened axs w) b) /\
    xlabel (axes (snd (plot_homotopy ppath xpaths rzero czero equal axs w)) b)
      = xlabel (axes (opened axs w) b) /\
    ylabel (axes (snd (plot_homotopy ppath xpaths rzero czero equal axs w)) b)
      = ylabel (axes (opened axs w) b).
Proof.
  rewrite plot_homotopy_unfold. intros Hrun b.
  pose proof (draw_all_kept aspect_of ppath xpaths rzero czero (panels_for axs w)
                (opened axs w) (fun _ _ => eq_refl) b) as Ha.
  pose proof (draw_all_kept xlabel ppath xpaths rzero czero (panels_for axs w)
                (opened axs w) (fun _ _ => eq_refl) b) as Hx.
  pose proof (draw_all_kept ylabel ppath xpaths rzero czero (panels_for axs w)
                (opened axs w) (fun _ _ => eq_refl) b) as Hy.
  destruct (draw_all _ _ _ _ _ _) as [[[] | e0] w1]; cbn [fst snd] in *.
  - discriminate Hrun.
  - now repeat split.
Qed.

(** X13. Handing [plot_homotopy] the same axes for both panels overlays the
    two plots: when nothing raises, the axes gains the reference curves and
    then, entry by entry, the real-part curve followed by the imaginary-part
    curve; its x-label ends as "Solution (Imaginary)", the label set last,
    and its y-label as "Parameter". *)
Theorem plot_homotopy_same_panel (a : handle) (ppath : pyobj) (xpaths : list pyobj)
    (rzero czero : option pyobj) (equal : bool) (w : World) :
  has_parts ppath = true -> Forall (path_fits ppath) xpaths ->
  ref_fits w rzero ppath -> ref_fits w czero ppath ->
  exists w',
    plot_homotopy ppath xpaths rzero czero equal (Some (a, a)) w = (Ok tt, w') /\
    artists (axes w' a)
    = artists (axes w a)
      ++ map snd (ref_strokes a rzero ppath) ++ map snd (ref_strokes a czero ppath)
      ++ flat_map (fun xp => [Line2D (re_data xp) (re_data ppath) [];
                              Line2D (im_data xp) (re_data ppath) []]) xpaths /\
    xlabel (axes w' a) = "Solution (Imaginary)" /\
    ylabel (axes w' a) = "Parameter".
Proof.
  intros Hp Hall Hr Hc. eexists. split; [now apply plot_homotopy_ok |].
  cbn [panels_for opened]. split; [| split].
  - rewrite decorated_strokes_artists. unfold homotopy_strokes. cbn [fst snd].
    now rewrite !on_app, !on_ref_same, on_paths_same.
  - apply (decorated_xlabel_snd equal (a, a)).
  - apply (decorated_ylabel_fst equal (a, a)).
Qed.

(** ** The further properties at concrete inputs *)

(** X2 at [plot(lambda x: 1.0, 0, 1, N=3, zero=0)]. *)
Lemma plot_failure_draws_nothing_witness :
  fst scenario_constant = Err ValueError /\
  forall b, axes (snd scenario_constant) b = axes (readied None world0) b.
Proof.
  split; [reflexivity |].
  apply (plot_failure_draws_nothing constant_one 0 1 3 None (Some 0) [] world0 ValueError).
  reflexivity.
Defined.


(** X6 at two squares drawn on the axes of [world1], the second with a
    reference line at 0. *)
Lemma plot_twice_witness :
  exists w',
    (plot square (-1) 1 5 (Some 0%nat) None [] ;;
     plot square 0 2 3 (Some 0%nat) (Some 0) []) world1 = (Ok tt, w') /\
    length (calls w') = 2%nat /\
    length (artists (axes w' 0%nat)) = 3%nat.
Proof.
  destruct (linspace_length (-1) 1 5 ltac:(lia)) as (g & Hg & Hlen).
  destruct (linspace_length 0 2 3 ltac:(lia)) as (g' & Hg' & Hlen').
  destruct (plot_twice square square (-1) 1 0 2 5 3 0%nat (Some 0) [] [] world1 g g'
              (NdArray (map (fun n => Real (real n * real n)) (map Real g)))
              (NdArray (map (fun n => Real (real n * real n)) (map Real g'))))
    as (w' & Hrun & Hcalls & Hart); try reflexivity; try assumption.
  - simpl. now rewrite !length_map.
  - simpl. now rewrite !length_map.
  - exists w'. split; [exact Hrun |]. rewrite Hcalls, Hart. split; reflexivity.
Defined.


(** X10 at reference data of one value against a [ppath] of three. *)
Lemma plot_homotopy_reference_mismatch_witness :
  fst (plot_homotopy (NdArray ppath_nums) [NdArray xpath_nums]
         (Some (PyList [Real 0])) None true None world0) = Err ValueError /\
  artists (axes (snd (plot_homotopy (NdArray ppath_nums) [NdArray xpath_nums]
                        (Some (PyList [Real 0])) None true None world0)) 0%nat) = [].
Proof.
  destruct (proj1 (plot_homotopy_reference_mismatch (NdArray ppath_nums)
                     [NdArray xpath_nums] None None true None world0)
              (PyList [Real 0])) as [Herr Hax].
  - simpl. discriminate.
  - split; [exact Herr |]. rewrite Hax. reflexivity.
Defined.

(** X12 at the scenario with plain lists. *)
Lemma plot_homotopy_failure_keeps_decoration_witness :
  fst scenario_lists = Err AttributeError /\
  xlabel (axes (snd scenario_lists) 0%nat) = "" /\
  ylabel (axes (snd scenario_lists) 0%nat) = "".
Proof.
  split; [reflexivity |].
  destruct (plot_homotopy_failure_keeps_decoration (PyList ppath_nums) [PyList xpath_nums]
              None None true None world0 AttributeError eq_refl 0%nat) as (_ & Hx & Hy).
  split; [exact Hx | exact Hy].
Defined.

(** X13 at the scenario with numpy arrays, both panels the axes of
    [world1]. *)
Lemma plot_homotopy_same_panel_witness :
  exists w',
    plot_homotopy (NdArray ppath_nums) [NdArray xpath_nums] None None true
      (Some (0%nat, 0%nat)) world1 = (Ok tt, w') /\
    map curve_points (artists (axes w' 0%nat))
      = [[(1, 0); (2, 1); (3, 2)]; [(1, 0); (2, 1); (3, 2)]] /\
    xlabel (axes w' 0%nat) = "Solution (Imaginary)".
Proof.
  destruct (plot_homotopy_same_panel 0%nat (NdArray ppath_nums) [NdArray xpath_nums]
              None None true world1) as (w' & Hrun & Hart & Hx & _).
  - reflexivity.
  - repeat constructor.
  - exact I.
  - exact I.
  - exists w'. split; [exact Hrun |]. rewrite Hart. split; [reflexivity | exact Hx].
Defined.
